(** * The TCP authentication datapath of the enforcer

    A shallow embedding of [enforcer/datapath_tcp.go] and of the connection
    records of [enforcer/connection.go], followed by the properties of the
    handshake state machine that the specification states.

    Go pointers to connections and PU contexts are indices into two stores,
    so that a connection reached through several caches is one object.  The
    handlers run in a state monad over that store; an [error] result keeps
    every mutation made before it (Go does not roll back).  Calls to the
    collaborators that sit outside this file (collector, conntrack, token
    engine, locks) are recorded in an event trace. *)

From Stdlib Require Import ZArith List String Ascii Bool Lia.
From Stdlib Require Import Strings.Byte Numbers.DecimalString.
From stdpp Require Import base option gmap strings list fin_maps.

Import ListNotations.
Local Open Scope string_scope.
Local Open Scope list_scope.

(** ** Go values *)

Abbreviation bytes := (list Byte.byte).

Definition error := string.

(** [bytes.Compare]: lexicographic comparison, 0 on equal contents. *)
Fixpoint bytes_Compare (a b : bytes) : Z :=
  match a, b with
  | [], [] => 0%Z
  | [], _ :: _ => (-1)%Z
  | _ :: _, [] => 1%Z
  | x :: a', y :: b' =>
      match N.compare (Byte.to_N x) (Byte.to_N y) with
      | Lt => (-1)%Z
      | Gt => 1%Z
      | Eq => bytes_Compare a' b'
      end
  end.

(** [strconv.Itoa] *)
Definition Itoa (z : Z) : string := NilZero.string_of_int (Z.to_int z).

(** An IPv4 address is its 32-bit value; [String] is the dotted form. *)
Definition IP := Z.

Definition octet (ip : IP) (i : Z) : Z := Z.land (Z.shiftr ip (8 * i)) 255.

Definition IP_String (ip : IP) : string :=
  Itoa (octet ip 3) +:+ "." +:+ Itoa (octet ip 2) +:+ "." +:+
  Itoa (octet ip 1) +:+ "." +:+ Itoa (octet ip 0).

(** ** Policy values

    Modelled from the spec: the [policy] package is not part of the sources
    at hand.  A tag store is an ordered list of key/value pairs; a rule set is
    an ordered list of selectors with their flow policy, and [Search] returns
    the index and policy of the first rule that matches, or a negative
    index. *)

Definition TagStore := list (string * string).

Fixpoint TagStore_Get (t : TagStore) (k : string) : string * bool :=
  match t with
  | [] => ("", false)
  | (k', v) :: t' => if String.eqb k' k then (v, true) else TagStore_Get t' k
  end.

Definition AppendKeyValue (t : TagStore) (k v : string) : TagStore :=
  t ++ [(k, v)].

Record FlowPolicy := mkFlowPolicy {
  Action : Z;
  PolicyID : string
}.

Record Rule := mkRule {
  selector : TagStore -> bool;
  rulePolicy : FlowPolicy
}.

Definition PolicyDB := list Rule.

Fixpoint Search_from (i : Z) (db : PolicyDB) (t : TagStore)
  : Z * option FlowPolicy :=
  match db with
  | [] => ((-1)%Z, None)
  | r :: db' =>
      if selector r t then (i, Some (rulePolicy r))
      else Search_from (i + 1)%Z db' t
  end.

Definition Search (db : PolicyDB) (t : TagStore) : Z * option FlowPolicy :=
  Search_from 0%Z db t.

(** [ACLCache.GetMatchingAction(ip, port)] gives a policy pointer and an
    error. *)
Record ACLCache := mkACL {
  GetMatchingAction : IP -> Z -> option FlowPolicy * option error
}.

(** ** The keyed stores

    Modelled from the spec: the [cache] package is not part of the sources at
    hand.  An entry carries its value and the time-to-live its timer was last
    armed with; expiry itself is real time and is not represented, so the
    entries of [data] are the live ones. *)

Record Cache (V : Type) := mkCache {
  lifetime : Z;
  data : gmap string (V * Z)
}.
Arguments mkCache {V}.
Arguments lifetime {V}.
Arguments data {V}.

Section CacheOps.
Context {V : Type}.

Definition cache_Get (c : Cache V) (k : string) : option V :=
  fst <$> data c !! k.

(** [GetReset(k, duration)]: a hit re-arms the timer, with the lifetime of
    the cache when [duration] is 0. *)
Definition cache_GetReset (c : Cache V) (k : string) (duration : Z)
  : option V * Cache V :=
  match data c !! k with
  | Some (v, _) =>
      let ttl := if (0 <? duration)%Z then duration else lifetime c in
      (Some v, mkCache (lifetime c) (<[k := (v, ttl)]> (data c)))
  | None => (None, c)
  end.

Definition cache_AddOrUpdate (c : Cache V) (k : string) (v : V) : Cache V :=
  mkCache (lifetime c) (<[k := (v, lifetime c)]> (data c)).

(** [Add] refuses a key that is present. *)
Definition cache_Add (c : Cache V) (k : string) (v : V)
  : option error * Cache V :=
  match data c !! k with
  | Some _ => (Some "Item Exists - Use update", c)
  | None => (None, cache_AddOrUpdate c k v)
  end.

Definition cache_Remove (c : Cache V) (k : string)
  : option error * Cache V :=
  match data c !! k with
  | Some _ => (None, mkCache (lifetime c) (delete k (data c)))
  | None => (Some "Not found", c)
  end.

Definition cache_SetTimeOut (c : Cache V) (k : string) (ttl : Z)
  : option error * Cache V :=
  match data c !! k with
  | Some (v, _) => (None, mkCache (lifetime c) (<[k := (v, ttl)]> (data c)))
  | None => (Some "Item is already deleted", c)
  end.
End CacheOps.

(** ** Constants of the collaborating packages *)

(** TCP flag bits ([packet.TCPSynMask], [packet.TCPAckMask] and their
    union). *)
Definition TCPSynMask : Z := 0x02.
Definition TCPAckMask : Z := 0x10.
Definition TCPSynAckMask : Z := 0x12.

(** Base length of the authentication option: kind, length, two reserved
    bytes. *)
Definition TCPAuthenticationOptionBaseLen : Z := 4.

Inductive PacketType := PacketTypeNetwork | PacketTypeApplication.

Inductive PUType := ContainerPU | LinuxProcessPU | TransientPU.

Inductive ModeType := RemoteContainer | LocalContainer | LocalServer.

Definition ModeType_eqb (a b : ModeType) : bool :=
  match a, b with
  | RemoteContainer, RemoteContainer
  | LocalContainer, LocalContainer
  | LocalServer, LocalServer => true
  | _, _ => false
  end.

(** Drop reasons reported to the collector. *)
Inductive DropReason :=
  | InvalidToken | MissingToken | InvalidFormat
  | PolicyDrop | InvalidState | ServiceFailure.

(** Constants whose value the sources at hand do not fix. *)
Record Constants := mkConstants {
  TCPAuthenticationOption : Byte.byte;
  TransmitterLabel : string;
  PortNumberLabelString : string;
  DefaultNetwork : string;
  DefaultEndPoint : string;
  DefaultConnMark : Z;
  Initialmarkval : Z;
  policy_Reject : Z
}.

(** ** Connections *)

Inductive TCPFlowState :=
  | TCPSynSend | TCPSynReceived | TCPSynAckSend
  | TCPSynAckReceived | TCPAckSend | TCPData.

Definition TCPFlowState_eqb (a b : TCPFlowState) : bool :=
  match a, b with
  | TCPSynSend, TCPSynSend
  | TCPSynReceived, TCPSynReceived
  | TCPSynAckSend, TCPSynAckSend
  | TCPSynAckReceived, TCPSynAckReceived
  | TCPAckSend, TCPAckSend
  | TCPData, TCPData => true
  | _, _ => false
  end.

Definition PublicKey := option bytes.

Record AuthInfo := mkAuthInfo {
  LocalContext : bytes;
  RemoteContext : bytes;
  LocalContextID : string;
  RemoteContextID : string;
  RemotePublicKey : PublicKey;
  RemoteIP : string;
  RemotePort : string
}.

Definition PuId := nat.
Definition ConnId := nat.

(** [TCPConnection] with the fields the datapath reads and writes: the
    handshake state and [Auth] of [connection.go], the back-reference to the
    owning PU context, the cached flow policy and the two service fields. *)
Record TCPConnection := mkTCPConnection {
  State : TCPFlowState;
  Auth : AuthInfo;
  Context_ : option PuId;
  FlowPolicy_ : option FlowPolicy;
  ServiceConnection : bool;
  TimeOut : Z
}.

Definition set_State (st : TCPFlowState) (c : TCPConnection) : TCPConnection :=
  mkTCPConnection st (Auth c) (Context_ c) (FlowPolicy_ c)
                  (ServiceConnection c) (TimeOut c).

Definition set_Auth (a : AuthInfo) (c : TCPConnection) : TCPConnection :=
  mkTCPConnection (State c) a (Context_ c) (FlowPolicy_ c)
                  (ServiceConnection c) (TimeOut c).

Definition set_Context (pu : option PuId) (c : TCPConnection) : TCPConnection :=
  mkTCPConnection (State c) (Auth c) pu (FlowPolicy_ c)
                  (ServiceConnection c) (TimeOut c).

Definition set_FlowPolicy (p : option FlowPolicy) (c : TCPConnection)
  : TCPConnection :=
  mkTCPConnection (State c) (Auth c) (Context_ c) p
                  (ServiceConnection c) (TimeOut c).

Definition set_LocalContext (n : bytes) (a : AuthInfo) : AuthInfo :=
  mkAuthInfo n (RemoteContext a) (LocalContextID a) (RemoteContextID a)
             (RemotePublicKey a) (RemoteIP a) (RemotePort a).

(** ** Token claims and the token engine *)

Record ConnectionClaims := mkClaims {
  T : option TagStore;
  LCL : bytes;
  RMT : bytes
}.

(** The [TokenEngine] interface.  Each method returns every value of its Go
    result tuple, the error last.  The [nat] argument of the two methods that
    draw a nonce is the number of draws made before the call.  [Randomize]
    rewrites the token in place: its first result is the token afterwards. *)
Record TokenEngine := mkTokenEngine {
  CreateAndSign : bool -> ConnectionClaims -> nat -> bytes * bytes * option error;
  Decode : bool -> bytes -> PublicKey
           -> option ConnectionClaims * bytes * PublicKey * option error;
  Randomize : bytes -> nat -> bytes * bytes * option error
}.

(** ** PU contexts *)

Record PUContext := mkPUContext {
  ManagementID : string;
  PUType_ : PUType;
  Identity : option TagStore;
  AcceptRcvRules : PolicyDB;
  RejectRcvRules : PolicyDB;
  AcceptTxtRules : PolicyDB;
  RejectTxtRules : PolicyDB;
  NetworkACLS : ACLCache;
  ApplicationACLs : ACLCache;
  externalIPCache : Cache FlowPolicy;
  synToken : bytes;
  synExpiration : Z
}.

Definition set_synToken (t : bytes) (c : PUContext) : PUContext :=
  mkPUContext (ManagementID c) (PUType_ c) (Identity c) (AcceptRcvRules c)
    (RejectRcvRules c) (AcceptTxtRules c) (RejectTxtRules c) (NetworkACLS c)
    (ApplicationACLs c) (externalIPCache c) t (synExpiration c).

Definition set_synExpiration (e : Z) (c : PUContext) : PUContext :=
  mkPUContext (ManagementID c) (PUType_ c) (Identity c) (AcceptRcvRules c)
    (RejectRcvRules c) (AcceptTxtRules c) (RejectTxtRules c) (NetworkACLS c)
    (ApplicationACLs c) (externalIPCache c) (synToken c) e.

Definition set_externalIPCache (x : Cache FlowPolicy) (c : PUContext)
  : PUContext :=
  mkPUContext (ManagementID c) (PUType_ c) (Identity c) (AcceptRcvRules c)
    (RejectRcvRules c) (AcceptTxtRules c) (RejectTxtRules c) (NetworkACLS c)
    (ApplicationACLs c) x (synToken c) (synExpiration c).

(** The zero-valued context that [&PUContext{PUType: ...}] allocates. *)
Definition zero_PUContext (t : PUType) : PUContext :=
  mkPUContext "" t None [] [] [] []
    (mkACL (fun _ _ => (None, Some "No match")))
    (mkACL (fun _ _ => (None, Some "No match")))
    (mkCache 0%Z ∅) [] 0%Z.

(** ** Packets *)

Record Packet := mkPacket {
  SourceAddress : IP;
  DestinationAddress : IP;
  SourcePort : Z;
  DestinationPort : Z;
  IPProto : Z;
  TCPFlags : Z;
  Mark : string;
  tcpOptions : bytes;
  tcpData : bytes;
  ConnectionMetadata : option ConnId
}.

Definition set_ConnectionMetadata (m : option ConnId) (p : Packet) : Packet :=
  mkPacket (SourceAddress p) (DestinationAddress p) (SourcePort p)
    (DestinationPort p) (IPProto p) (TCPFlags p) (Mark p) (tcpOptions p)
    (tcpData p) m.

(** The methods of [packet.Packet] that the datapath calls.  The ones that
    rewrite the packet return the packet afterwards. *)
Record PacketOps := mkPacketOps {
  L4FlowHash : Packet -> string;
  L4ReverseFlowHash : Packet -> string;
  SourcePortHash : Packet -> PacketType -> string;
  CheckTCPAuthenticationOption : Packet -> Z -> option error;
  ReadTCPData : Packet -> bytes;
  TCPDataAttach : Packet -> bytes -> bytes -> Packet * option error;
  TCPDataDetach : Packet -> Z -> Packet * option error;
  DropDetachedBytes : Packet -> Packet;
  UpdateTCPChecksum : Packet -> Packet
}.

(** ** The store and the trace *)

Inductive RuleSet := RejectRcv | AcceptRcv | RejectTxt | AcceptTxt.

Inductive Event :=
  | EvConnLock (c : ConnId)
  | EvConnUnlock (c : ConnId)
  | EvContextLock (pu : PuId)
  | EvContextUnlock (pu : PuId)
  | EvRejectedFlow (flow : string) (conn : option ConnId)
      (sourceID destID : string) (pu : PuId) (reason : DropReason)
      (plc : option FlowPolicy)
  | EvAcceptedFlow (flow : string) (conn : ConnId)
      (sourceID destID : string) (pu : PuId) (plc : option FlowPolicy)
  | EvExternalServiceFlow (pu : PuId) (plc : option FlowPolicy) (app : bool)
      (flow : string)
  | EvReverseExternalServiceFlow (pu : PuId) (plc : option FlowPolicy)
      (app : bool) (flow : string)
  | EvConntrackUpdateMark (src dst : string) (proto sport dport mark : Z)
  | EvSearch (rs : RuleSet) (tags : TagStore)
  | EvCreateAndSign (isAck : bool) (claims : ConnectionClaims)
  | EvRandomize (token : bytes)
  | EvDecode (isAck : bool) (token : bytes).

Definition is_rejection_report (e : Event) : bool :=
  match e with
  | EvRejectedFlow _ _ _ _ _ _ _ => true
  | _ => false
  end.

Definition is_conn_lock (e : Event) : bool :=
  match e with
  | EvConnLock _ => true
  | _ => false
  end.

Definition is_token_creation (e : Event) : bool :=
  match e with
  | EvCreateAndSign _ _ | EvRandomize _ => true
  | _ => false
  end.

(** The rule sets searched, in the order of the searches. *)
Definition searched (evs : list Event) : list RuleSet :=
  flat_map (fun e => match e with EvSearch rs _ => [rs] | _ => [] end) evs.

(** The caches that the [Datapath] struct owns. *)
Record Caches := mkCaches {
  appOrigConnectionTracker : Cache ConnId;
  appReplyConnectionTracker : Cache ConnId;
  netOrigConnectionTracker : Cache ConnId;
  netReplyConnectionTracker : Cache ConnId;
  sourcePortConnectionCache : Cache ConnId;
  puFromIP : Cache PuId;
  puFromMark : Cache PuId;
  puFromPort : Cache PuId
}.

Inductive ConnCache := AppOrig | AppReply | NetOrig | NetReply | SourcePortC.

Definition connCache (k : ConnCache) (cs : Caches) : Cache ConnId :=
  match k with
  | AppOrig => appOrigConnectionTracker cs
  | AppReply => appReplyConnectionTracker cs
  | NetOrig => netOrigConnectionTracker cs
  | NetReply => netReplyConnectionTracker cs
  | SourcePortC => sourcePortConnectionCache cs
  end.

Definition set_connCache (k : ConnCache) (c : Cache ConnId) (cs : Caches)
  : Caches :=
  match k with
  | AppOrig =>
      mkCaches c (appReplyConnectionTracker cs) (netOrigConnectionTracker cs)
        (netReplyConnectionTracker cs) (sourcePortConnectionCache cs)
        (puFromIP cs) (puFromMark cs) (puFromPort cs)
  | AppReply =>
      mkCaches (appOrigConnectionTracker cs) c (netOrigConnectionTracker cs)
        (netReplyConnectionTracker cs) (sourcePortConnectionCache cs)
        (puFromIP cs) (puFromMark cs) (puFromPort cs)
  | NetOrig =>
      mkCaches (appOrigConnectionTracker cs) (appReplyConnectionTracker cs) c
        (netReplyConnectionTracker cs) (sourcePortConnectionCache cs)
        (puFromIP cs) (puFromMark cs) (puFromPort cs)
  | NetReply =>
      mkCaches (appOrigConnectionTracker cs) (appReplyConnectionTracker cs)
        (netOrigConnectionTracker cs) c (sourcePortConnectionCache cs)
        (puFromIP cs) (puFromMark cs) (puFromPort cs)
  | SourcePortC =>
      mkCaches (appOrigConnectionTracker cs) (appReplyConnectionTracker cs)
        (netOrigConnectionTracker cs) (netReplyConnectionTracker cs) c
        (puFromIP cs) (puFromMark cs) (puFromPort cs)
  end.

Definition set_puFromPort (c : Cache PuId) (cs : Caches) : Caches :=
  mkCaches (appOrigConnectionTracker cs) (appReplyConnectionTracker cs)
    (netOrigConnectionTracker cs) (netReplyConnectionTracker cs)
    (sourcePortConnectionCache cs) (puFromIP cs) (puFromMark cs) c.

(** Everything a packet worker can read or write: the two object stores
    behind the Go pointers, the caches, the packet in flight (the handlers
    receive it by pointer), the number of clock readings and nonce draws made
    so far, and the trace. *)
Record World := mkWorld {
  conns : gmap nat TCPConnection;
  pus : gmap nat PUContext;
  caches : Caches;
  pkt : Packet;
  timeCalls : nat;
  randCalls : nat;
  trace : list Event
}.

Definition set_conns (x : gmap nat TCPConnection) (w : World) : World :=
  mkWorld x (pus w) (caches w) (pkt w) (timeCalls w) (randCalls w) (trace w).
Definition set_pus (x : gmap nat PUContext) (w : World) : World :=
  mkWorld (conns w) x (caches w) (pkt w) (timeCalls w) (randCalls w) (trace w).
Definition set_caches (x : Caches) (w : World) : World :=
  mkWorld (conns w) (pus w) x (pkt w) (timeCalls w) (randCalls w) (trace w).
Definition set_pkt (x : Packet) (w : World) : World :=
  mkWorld (conns w) (pus w) (caches w) x (timeCalls w) (randCalls w) (trace w).
Definition set_timeCalls (x : nat) (w : World) : World :=
  mkWorld (conns w) (pus w) (caches w) (pkt w) x (randCalls w) (trace w).
Definition set_randCalls (x : nat) (w : World) : World :=
  mkWorld (conns w) (pus w) (caches w) (pkt w) (timeCalls w) x (trace w).
Definition set_trace (x : list Event) (w : World) : World :=
  mkWorld (conns w) (pus w) (caches w) (pkt w) (timeCalls w) (randCalls w) x.

(** What a connection of the store holds. *)
Definition LocalContextOf (w : World) (c : ConnId) : option bytes :=
  (fun x => LocalContext (Auth x)) <$> conns w !! c.

Definition RemoteContextOf (w : World) (c : ConnId) : option bytes :=
  (fun x => RemoteContext (Auth x)) <$> conns w !! c.

Definition StateOf (w : World) (c : ConnId) : option TCPFlowState :=
  State <$> conns w !! c.

(** ** The monad of the handlers *)

Inductive Result (A : Type) :=
  | Ok (a : A)
  | Error (e : error)
  | Panic (msg : string).
Arguments Ok {A}.
Arguments Error {A}.
Arguments Panic {A}.

Definition M (A : Type) : Type := World -> Result A * World.

Definition ret {A} (a : A) : M A := fun w => (Ok a, w).

Definition bind {A B} (m : M A) (k : A -> M B) : M B :=
  fun w =>
    match m w with
    | (Ok a, w') => k a w'
    | (Error e, w') => (Error e, w')
    | (Panic s, w') => (Panic s, w')
    end.

Declare Scope go_scope.
Delimit Scope go_scope with go.
Notation "x <- m ;; k" := (bind m (fun x => k))
  (at level 100, m at next level, right associativity) : go_scope.
Notation "m ;;; k" := (bind m (fun _ => k))
  (at level 100, right associativity) : go_scope.
Local Open Scope go_scope.

(** [return ..., err] with a non-nil error. *)
Definition throw {A} (e : error) : M A := fun w => (Error e, w).

Definition panic {A} (msg : string) : M A := fun w => (Panic msg, w).

Definition gets {A} (f : World -> A) : M A := fun w => (Ok (f w), w).

Definition modify (f : World -> World) : M unit := fun w => (Ok tt, f w).

(** [v, err := f(...)]: the error of the callee becomes a value. *)
Definition attempt {A} (m : M A) : M (A + error) :=
  fun w =>
    match m w with
    | (Ok a, w') => (Ok (inl a), w')
    | (Error e, w') => (Ok (inr e), w')
    | (Panic s, w') => (Panic s, w')
    end.

(** [defer c]: [c] runs when the body returns, whatever it returns. *)
Definition deferring {A} (c : M unit) (body : M A) : M A :=
  fun w =>
    match body w with
    | (r, w') => (r, snd (c w'))
    end.

Definition emit (e : Event) : M unit :=
  modify (fun w => set_trace (trace w ++ [e]) w).

(** [err != nil] *)
Definition notnil (e : option error) : bool :=
  match e with
  | Some _ => true
  | None => false
  end.

Definition is_err {A} (r : Result A) : bool :=
  match r with
  | Error _ => true
  | _ => false
  end.

(** ** The datapath object *)

(** The optional service plug-in: four hooks that see the packet, the
    context and the connection, may update them, and answer with a bool. *)
Record PacketProcessor := mkPacketProcessor {
  PreProcessTCPAppPacket : PuId -> ConnId -> World -> bool * World;
  PostProcessTCPAppPacket :
    option FlowPolicy -> PuId -> ConnId -> World -> bool * World;
  PreProcessTCPNetPacket : PuId -> ConnId -> World -> bool * World;
  PostProcessTCPNetPacket :
    option FlowPolicy -> option ConnectionClaims -> PuId -> ConnId
    -> World -> bool * World
}.

(** The fields of [Datapath] that are fixed once it is built; its caches are
    in the store. *)
Record Datapath := mkDatapath {
  mode : ModeType;
  mutualAuthorization : bool;
  ackSize : Z;
  tokenEngine : TokenEngine;
  service : option PacketProcessor
}.

(** [time.Millisecond], in nanoseconds. *)
Definition Millisecond : Z := 1000000.

(** What the datapath takes from the other packages and from the runtime:
    their constants, the packet methods, the wall clock ([clock n] is what the
    [n]-th reading of [time.Now] returns, in nanoseconds) and
    [crypto.GenerateRandomBytes] (its [nat] argument counts the draws made
    before the call). *)
Class Env := mkEnv {
  K : Constants;
  pk : PacketOps;
  clock : nat -> Z;
  GenerateRandomBytes : Z -> nat -> bytes * option error
}.

Section DatapathTCP.

Context {E : Env}.

(** The receiver of the methods. *)
Variable d : Datapath.

(** *** Store access *)

Definition getConn (c : ConnId) : M TCPConnection :=
  o <- gets (fun w => conns w !! c) ;;
  match o with
  | Some x => ret x
  | None => panic "invalid memory address or nil pointer dereference"
  end.

Definition updConn (c : ConnId) (f : TCPConnection -> TCPConnection)
  : M unit :=
  x <- getConn c ;;
  modify (fun w => set_conns (<[c := f x]> (conns w)) w).

Definition getAuth (c : ConnId) : M AuthInfo :=
  x <- getConn c ;; ret (Auth x).

Definition updAuth (c : ConnId) (f : AuthInfo -> AuthInfo) : M unit :=
  updConn c (fun x => set_Auth (f (Auth x)) x).

Definition GetState (c : ConnId) : M TCPFlowState :=
  x <- getConn c ;; ret (State x).

Definition SetState (c : ConnId) (st : TCPFlowState) : M unit :=
  updConn c (set_State st).

Definition getCtx (pu : PuId) : M PUContext :=
  o <- gets (fun w => pus w !! pu) ;;
  match o with
  | Some x => ret x
  | None => panic "invalid memory address or nil pointer dereference"
  end.

Definition updCtx (pu : PuId) (f : PUContext -> PUContext) : M unit :=
  x <- getCtx pu ;;
  modify (fun w => set_pus (<[pu := f x]> (pus w)) w).

Definition conn_Lock (c : ConnId) : M unit := emit (EvConnLock c).
Definition conn_Unlock (c : ConnId) : M unit := emit (EvConnUnlock c).
Definition context_Lock (pu : PuId) : M unit := emit (EvContextLock pu).
Definition context_Unlock (pu : PuId) : M unit := emit (EvContextUnlock pu).

Definition time_Now : M Z :=
  n <- gets timeCalls ;;
  modify (set_timeCalls (S n)) ;;;
  ret (clock n).

Definition draw : M nat :=
  n <- gets randCalls ;;
  modify (set_randCalls (S n)) ;;;
  ret n.

Definition setPkt (p : Packet) : M unit := modify (set_pkt p).

(** *** The cache methods, on the caches of the store *)

Definition GetReset (kc : ConnCache) (key : string) (duration : Z)
  : M (option ConnId) :=
  c <- gets (fun w => connCache kc (caches w)) ;;
  let '(r, c') := cache_GetReset c key duration in
  modify (fun w => set_caches (set_connCache kc c' (caches w)) w) ;;;
  ret r.

Definition AddOrUpdate (kc : ConnCache) (key : string) (v : ConnId)
  : M unit :=
  modify (fun w =>
    set_caches
      (set_connCache kc (cache_AddOrUpdate (connCache kc (caches w)) key v)
         (caches w)) w).

Definition Remove (kc : ConnCache) (key : string) : M (option error) :=
  c <- gets (fun w => connCache kc (caches w)) ;;
  let '(r, c') := cache_Remove c key in
  modify (fun w => set_caches (set_connCache kc c' (caches w)) w) ;;;
  ret r.

Definition SetTimeOut (kc : ConnCache) (key : string) (ttl : Z)
  : M (option error) :=
  c <- gets (fun w => connCache kc (caches w)) ;;
  let '(r, c') := cache_SetTimeOut c key ttl in
  modify (fun w => set_caches (set_connCache kc c' (caches w)) w) ;;;
  ret r.

(** *** The collector and the conntrack handle: calls are traced, and a
    conntrack failure is only logged by its callers. *)

Definition reportRejectedFlow (conn : option ConnId)
    (sourceID destID : string) (context : PuId) (reason : DropReason)
    (plc : option FlowPolicy) : M unit :=
  p <- gets pkt ;;
  emit (EvRejectedFlow (L4FlowHash pk p) conn sourceID destID context
          reason plc).

Definition reportAcceptedFlow (conn : ConnId) (sourceID destID : string)
    (context : PuId) (plc : option FlowPolicy) : M unit :=
  p <- gets pkt ;;
  emit (EvAcceptedFlow (L4FlowHash pk p) conn sourceID destID context plc).

Definition reportExternalServiceFlow (context : PuId)
    (plc : option FlowPolicy) (app : bool) : M unit :=
  p <- gets pkt ;;
  emit (EvExternalServiceFlow context plc app (L4FlowHash pk p)).

Definition reportReverseExternalServiceFlow (context : PuId)
    (plc : option FlowPolicy) (app : bool) : M unit :=
  p <- gets pkt ;;
  emit (EvReverseExternalServiceFlow context plc app (L4FlowHash pk p)).

Definition ConntrackTableUpdateMark (src dst : string)
    (proto sport dport mark : Z) : M unit :=
  emit (EvConntrackUpdateMark src dst proto sport dport mark).

Definition RuleSet_Search (rs : RuleSet) (db : PolicyDB) (t : TagStore)
  : M (Z * option FlowPolicy) :=
  emit (EvSearch rs t) ;;;
  ret (Search db t).

(** *** Connection records ([connection.go]) *)

Definition zero_AuthInfo : AuthInfo := mkAuthInfo [] [] "" "" None "" "".

Definition initAuthInfo (s : AuthInfo) : M AuthInfo :=
  n <- draw ;;
  let '(nonse, _) := GenerateRandomBytes 32 n in
  ret (set_LocalContext nonse s).

Definition NewTCPConnection : M ConnId :=
  let c := mkTCPConnection TCPSynSend zero_AuthInfo None None false 0 in
  a <- initAuthInfo (Auth c) ;;
  id <- gets (fun w => fresh (dom (conns w))) ;;
  modify (fun w => set_conns (<[id := set_Auth a c]> (conns w)) w) ;;;
  ret id.

(** *** Tokens *)

Definition createAckPacketToken (context : PuId) (conn : ConnId) : M bytes :=
  auth <- getAuth conn ;;
  let claims := mkClaims None (LocalContext auth) (RemoteContext auth) in
  emit (EvCreateAndSign true claims) ;;;
  n <- draw ;;
  let '(token, _, err) := CreateAndSign (tokenEngine d) true claims n in
  match err with
  | Some e => throw e
  | None => ret token
  end.

Definition createSynPacketToken (context : PuId) (conn : ConnId) : M bytes :=
  ctx <- getCtx context ;;
  now <- time_Now ;;
  reused <-
    (if (now <? synExpiration ctx)%Z && (0 <? length (synToken ctx))%nat
     then
       emit (EvRandomize (synToken ctx)) ;;;
       n <- draw ;;
       let '(token, nonce, err) :=
         Randomize (tokenEngine d) (synToken ctx) n in
       updCtx context (set_synToken token) ;;;
       updAuth conn (set_LocalContext nonce) ;;;
       ret (match err with None => Some token | Some _ => None end)
     else ret None) ;;
  match reused with
  | Some token => ret token
  | None =>
      ctx <- getCtx context ;;
      let claims := mkClaims (Identity ctx) [] [] in
      emit (EvCreateAndSign false claims) ;;;
      n <- draw ;;
      let '(token, nonce, err) :=
        CreateAndSign (tokenEngine d) false claims n in
      updCtx context (set_synToken token) ;;;
      updAuth conn (set_LocalContext nonce) ;;;
      match err with
      | Some _ => ret []
      | None =>
          now <- time_Now ;;
          updCtx context (set_synExpiration (now + Millisecond * 500)%Z) ;;;
          ret token
      end
  end.

Definition createSynAckPacketToken (context : PuId) (conn : ConnId)
  : M bytes :=
  ctx <- getCtx context ;;
  auth <- getAuth conn ;;
  let claims := mkClaims (Identity ctx) [] (RemoteContext auth) in
  emit (EvCreateAndSign false claims) ;;;
  n <- draw ;;
  let '(token, nonce, err) :=
    CreateAndSign (tokenEngine d) false claims n in
  updCtx context (set_synToken token) ;;;
  updAuth conn (set_LocalContext nonce) ;;;
  match err with
  | Some _ => ret []
  | None => ret token
  end.

Definition parsePacketToken (conn : ConnId) (data : bytes)
  : M ConnectionClaims :=
  auth <- getAuth conn ;;
  emit (EvDecode false data) ;;;
  let '(claims, nonce, cert, err) :=
    Decode (tokenEngine d) false data (RemotePublicKey auth) in
  match err with
  | Some e => throw e
  | None =>
      match claims with
      | None => panic "invalid memory address or nil pointer dereference"
      | Some cl =>
          match T cl with
          | None => panic "invalid memory address or nil pointer dereference"
          | Some t =>
              let '(remoteContextID, ok) :=
                TagStore_Get t (TransmitterLabel K) in
              if negb ok then throw "No Transmitter Label "
              else
                updAuth conn (fun a =>
                  mkAuthInfo (LocalContext a) nonce (LocalContextID a)
                    remoteContextID cert (RemoteIP a) (RemotePort a)) ;;;
                ret cl
          end
      end
  end.

Definition parseAckToken (conn : ConnId) (data : bytes)
  : M ConnectionClaims :=
  auth <- getAuth conn ;;
  emit (EvDecode true data) ;;;
  let '(claims, _, _, err) :=
    Decode (tokenEngine d) true data (RemotePublicKey auth) in
  match err with
  | Some e => throw e
  | None =>
      match claims with
      | None => panic "invalid memory address or nil pointer dereference"
      | Some cl =>
          let matchLocal := bytes_Compare (RMT cl) (LocalContext auth) in
          let matchRemote := bytes_Compare (LCL cl) (RemoteContext auth) in
          if negb (matchLocal =? 0)%Z || negb (matchRemote =? 0)%Z
          then throw "Failed to match context in ACK packet"
          else ret cl
      end
  end.

Definition createTCPAuthenticationOption (token : bytes) : bytes :=
  let tokenLen := (Z.of_nat (length token) mod 256)%Z in
  let options :=
    [TCPAuthenticationOption K;
     default "000"%byte
       (Byte.of_N (Z.to_N ((TCPAuthenticationOptionBaseLen + tokenLen) mod 256)));
     "000"%byte; "000"%byte] in
  if negb (tokenLen =? 0)%Z then options ++ token else options.

(** *** State resolution *)

Definition updateTimer (kc : ConnCache) (hash : string) (conn : ConnId)
  : M unit :=
  conn_Lock conn ;;;
  deferring (conn_Unlock conn)
    (c <- getConn conn ;;
     if ServiceConnection c && (0 <? TimeOut c)%Z then
       e <- SetTimeOut kc hash (TimeOut c) ;;
       match e with
       | Some err => throw err
       | None => ret tt
       end
     else ret tt).

Definition contextFromIP (app : bool) (packetIP mark port : string)
  : M PuId :=
  pu <- gets (fun w => cache_Get (puFromIP (caches w)) packetIP) ;;
  match pu with
  | Some x => ret x
  | None =>
      if ModeType_eqb (mode d) LocalContainer
      then throw "IP must be always populated to local containers"
      else
        defaultPU <-
          gets (fun w => cache_Get (puFromIP (caches w)) (DefaultNetwork K)) ;;
        match defaultPU with
        | Some x => ret x
        | None =>
            if app then
              pu <- gets (fun w => cache_Get (puFromMark (caches w)) mark) ;;
              match pu with
              | None => throw "PU context cannot be found using mark"
              | Some x => ret x
              end
            else
              pu <- gets (fun w => cache_Get (puFromPort (caches w)) port) ;;
              match pu with
              | None => throw "PU Context cannot be found using port key"
              | Some x => ret x
              end
        end
  end.

Definition appSynRetrieveState : M (PuId * option ConnId) :=
  p <- gets pkt ;;
  r <- attempt (contextFromIP true (IP_String (SourceAddress p)) (Mark p)
                  (Itoa (SourcePort p))) ;;
  match r with
  | inr _ => throw "No Context in App Processing"
  | inl context =>
      o <- GetReset AppOrig (L4FlowHash pk p) 0 ;;
      conn <- match o with
              | Some c => ret c
              | None => NewTCPConnection
              end ;;
      conn_Lock conn ;;;
      updConn conn (set_Context (Some context)) ;;;
      conn_Unlock conn ;;;
      ret (context, Some conn)
  end.

(** The tail shared by the resolvers that recover a stored connection:
    read its context under the connection lock. *)
Definition contextOf (conn : ConnId) : M (PuId * option ConnId) :=
  conn_Lock conn ;;;
  deferring (conn_Unlock conn)
    (c <- getConn conn ;;
     match Context_ c with
     | None => throw "No context found"
     | Some context => ret (context, Some conn)
     end).

Definition appRetrieveState : M (PuId * option ConnId) :=
  p <- gets pkt ;;
  let hash := L4FlowHash pk p in
  o <- GetReset AppReply hash 0 ;;
  match o with
  | None =>
      o <- GetReset AppOrig hash 0 ;;
      match o with
      | None =>
          (if negb (ModeType_eqb (mode d) RemoteContainer) then
             r <- attempt (contextFromIP true (IP_String (SourceAddress p))
                             (Mark p) (Itoa (SourcePort p))) ;;
             match r with
             | inl context =>
                 modify (fun w =>
                   set_caches
                     (set_puFromPort
                        (cache_AddOrUpdate (puFromPort (caches w))
                           (Itoa (SourcePort p)) context)
                        (caches w)) w)
             | inr _ => ret tt
             end
           else ret tt) ;;;
          throw "App state not found"
      | Some conn =>
          updateTimer AppOrig hash conn ;;;
          contextOf conn
      end
  | Some conn =>
      updateTimer AppReply hash conn ;;;
      contextOf conn
  end.

Definition netSynRetrieveState : M (PuId * option ConnId) :=
  p <- gets pkt ;;
  r <- attempt (contextFromIP false (IP_String (DestinationAddress p))
                  (Mark p) (Itoa (DestinationPort p))) ;;
  match r with
  | inr _ =>
      if negb (ModeType_eqb (mode d) RemoteContainer) then
        context <- gets (fun w => fresh (dom (pus w))) ;;
        modify (fun w =>
          set_pus (<[context := zero_PUContext TransientPU]> (pus w)) w) ;;;
        ret (context, None)
      else throw "No Context in net Processing"
  | inl context =>
      o <- GetReset NetOrig (L4FlowHash pk p) 0 ;;
      conn <- match o with
              | Some c => ret c
              | None => NewTCPConnection
              end ;;
      conn_Lock conn ;;;
      updConn conn (set_Context (Some context)) ;;;
      conn_Unlock conn ;;;
      ret (context, Some conn)
  end.

Definition netSynAckRetrieveState : M (PuId * option ConnId) :=
  p <- gets pkt ;;
  o <- GetReset SourcePortC (SourcePortHash pk p PacketTypeNetwork) 0 ;;
  match o with
  | None => throw "No Synack Connection"
  | Some conn => contextOf conn
  end.

Definition netRetrieveState : M (PuId * option ConnId) :=
  p <- gets pkt ;;
  let hash := L4FlowHash pk p in
  o <- GetReset NetReply hash 0 ;;
  match o with
  | None =>
      o <- GetReset NetOrig hash 0 ;;
      match o with
      | None => throw "Net state not found"
      | Some conn =>
          updateTimer NetOrig hash conn ;;;
          contextOf conn
      end
  | Some conn =>
      updateTimer NetReply hash conn ;;;
      contextOf conn
  end.

Definition releaseFlow (context : PuId) (plc : option FlowPolicy) : M unit :=
  p <- gets pkt ;;
  Remove AppOrig (L4FlowHash pk p) ;;;
  Remove SourcePortC (SourcePortHash pk p PacketTypeApplication) ;;;
  ConntrackTableUpdateMark (IP_String (DestinationAddress p))
    (IP_String (SourceAddress p)) (IPProto p) (DestinationPort p)
    (SourcePort p) (DefaultConnMark K) ;;;
  reportReverseExternalServiceFlow context plc true.

(** *** Application-side handlers *)

(** [tcpPacket.TCPDataAttach(options, data)] on the packet in flight. *)
Definition attachToPacket (tcpOptions tcpData : bytes)
  : M (option FlowPolicy) :=
  p <- gets pkt ;;
  let '(p', e) := TCPDataAttach pk p tcpOptions tcpData in
  setPkt p' ;;;
  match e with
  | Some err => throw err
  | None => ret None
  end.

Definition processApplicationSynPacket (context : PuId) (conn : ConnId)
  : M (option FlowPolicy) :=
  p <- gets pkt ;;
  context_Lock context ;;;
  ctx <- getCtx context ;;
  match cache_Get (externalIPCache ctx)
          (IP_String (DestinationAddress p) +:+ ":" +:+
           Itoa (DestinationPort p)) with
  | Some policy =>
      context_Unlock context ;;;
      AddOrUpdate AppOrig (L4FlowHash pk p) conn ;;;
      AddOrUpdate SourcePortC (SourcePortHash pk p PacketTypeApplication)
        conn ;;;
      ret (Some policy)
  | None =>
      context_Unlock context ;;;
      let tcpOptions := createTCPAuthenticationOption [] in
      context_Lock context ;;;
      r <- attempt (createSynPacketToken context conn) ;;
      context_Unlock context ;;;
      match r with
      | inr err => throw err
      | inl tcpData =>
          let hash := L4FlowHash pk p in
          SetState conn TCPSynSend ;;;
          AddOrUpdate AppOrig hash conn ;;;
          AddOrUpdate SourcePortC
            (SourcePortHash pk p PacketTypeApplication) conn ;;;
          attachToPacket tcpOptions tcpData
      end
  end.

Definition processApplicationSynAckPacket (context : PuId) (conn : ConnId)
  : M (option FlowPolicy) :=
  p <- gets pkt ;;
  c <- getConn conn ;;
  if TCPFlowState_eqb (State c) TCPData && negb (ServiceConnection c) then
    ConntrackTableUpdateMark (IP_String (DestinationAddress p))
      (IP_String (SourceAddress p)) (IPProto p) (DestinationPort p)
      (SourcePort p) (DefaultConnMark K) ;;;
    Remove NetOrig (L4FlowHash pk p) ;;;
    Remove AppReply (L4ReverseFlowHash pk p) ;;;
    ret None
  else if TCPFlowState_eqb (State c) TCPSynReceived
          || TCPFlowState_eqb (State c) TCPSynAckSend then
    SetState conn TCPSynAckSend ;;;
    let tcpOptions := createTCPAuthenticationOption [] in
    context_Lock context ;;;
    r <- attempt (createSynAckPacketToken context conn) ;;
    context_Unlock context ;;;
    match r with
    | inr err => throw err
    | inl tcpData => attachToPacket tcpOptions tcpData
    end
  else throw "Received SynACK in wrong state".

Definition processApplicationAckPacket (context : PuId) (conn : ConnId)
  : M (option FlowPolicy) :=
  p <- gets pkt ;;
  c <- getConn conn ;;
  if TCPFlowState_eqb (State c) TCPData then ret None
  else if TCPFlowState_eqb (State c) TCPSynAckReceived
          || TCPFlowState_eqb (State c) TCPSynSend then
    context_Lock context ;;;
    r <- attempt (createAckPacketToken context conn) ;;
    context_Unlock context ;;;
    match r with
    | inr err => throw err
    | inl token =>
        let tcpOptions := createTCPAuthenticationOption [] in
        if negb (Z.of_nat (length token) =? ackSize d)%Z
        then throw "Protocol Error"
        else
          attachToPacket tcpOptions token ;;;
          SetState conn TCPAckSend ;;;
          p <- gets pkt ;;
          (if negb (ServiceConnection c)
              && negb (String.eqb (IP_String (SourceAddress p))
                                  (IP_String (DestinationAddress p)))
           then
             ConntrackTableUpdateMark (IP_String (SourceAddress p))
               (IP_String (DestinationAddress p)) (IPProto p)
               (SourcePort p) (DestinationPort p) (DefaultConnMark K)
           else ret tt) ;;;
          ret None
    end
  else if TCPFlowState_eqb (State c) TCPAckSend then
    Remove SourcePortC (SourcePortHash pk p PacketTypeApplication) ;;;
    SetState conn TCPData ;;;
    ret None
  else throw "Received application ACK packet in the wrong state!".

Definition processApplicationTCPPacket (context : PuId)
    (conn : option ConnId) : M (option FlowPolicy) :=
  match conn with
  | None => ret None
  | Some c =>
      p <- gets pkt ;;
      let flags := Z.land (TCPFlags p) TCPSynAckMask in
      if (flags =? TCPSynMask)%Z then processApplicationSynPacket context c
      else if (flags =? TCPAckMask)%Z
      then processApplicationAckPacket context c
      else if (flags =? TCPSynAckMask)%Z
      then processApplicationSynAckPacket context c
      else ret None
  end.

(** *** Network-side handlers *)

(** [TCPDataDetach] followed, on success, by [DropDetachedBytes]; the error
    of the detach is handed to the caller. *)
Definition detachFromPacket : M (option error) :=
  p <- gets pkt ;;
  let '(p', e) := TCPDataDetach pk p TCPAuthenticationOptionBaseLen in
  setPkt p' ;;;
  ret e.

Definition dropDetachedBytes : M unit :=
  p <- gets pkt ;;
  setPkt (DropDetachedBytes pk p).

Definition processNetworkSynPacket (context : PuId) (conn : ConnId)
  : M (option FlowPolicy * option ConnectionClaims) :=
  context_Lock context ;;;
  deferring (context_Unlock context)
    (p <- gets pkt ;;
     ctx <- getCtx context ;;
     match CheckTCPAuthenticationOption pk p TCPAuthenticationOptionBaseLen
     with
     | Some _ =>
         let '(plc, perr) :=
           GetMatchingAction (NetworkACLS ctx) (SourceAddress p)
             (DestinationPort p) in
         reportExternalServiceFlow context plc false ;;;
         match perr, plc with
         | Some _, _ => throw "Drop it"
         | None, None =>
             panic "invalid memory address or nil pointer dereference"
         | None, Some pl =>
             if (Action pl =? policy_Reject K)%Z then throw "Drop it"
             else
               SetState conn TCPData ;;;
               AddOrUpdate NetOrig (L4FlowHash pk p) conn ;;;
               AddOrUpdate AppReply (L4ReverseFlowHash pk p) conn ;;;
               ret (plc, None)
         end
     | None =>
         r <- attempt (parsePacketToken conn (ReadTCPData pk p)) ;;
         match r with
         | inr _ =>
             reportRejectedFlow (Some conn) (DefaultEndPoint K)
               (ManagementID ctx) context InvalidToken None ;;;
             throw "Syn packet dropped because of invalid token"
         | inl claims =>
             match T claims with
             | None =>
                 panic "invalid memory address or nil pointer dereference"
             | Some tags =>
                 let '(txLabel, ok) :=
                   TagStore_Get tags (TransmitterLabel K) in
                 if negb ok
                    || notnil (CheckTCPAuthenticationOption pk p
                                 TCPAuthenticationOptionBaseLen)
                 then
                   reportRejectedFlow (Some conn) txLabel (ManagementID ctx)
                     context InvalidFormat None ;;;
                   throw "TCP Authentication Option not found"
                 else
                   e <- detachFromPacket ;;
                   match e with
                   | Some _ =>
                       reportRejectedFlow (Some conn) txLabel
                         (ManagementID ctx) context InvalidFormat None ;;;
                       throw "Syn packet dropped because of invalid format"
                   | None =>
                       dropDetachedBytes ;;;
                       p <- gets pkt ;;
                       let tags :=
                         AppendKeyValue tags (PortNumberLabelString K)
                           (Itoa (DestinationPort p)) in
                       let claims := mkClaims (Some tags) (LCL claims)
                                       (RMT claims) in
                       rej <- RuleSet_Search RejectRcv (RejectRcvRules ctx)
                                tags ;;
                       if (0 <=? fst rej)%Z then
                         reportRejectedFlow (Some conn) txLabel
                           (ManagementID ctx) context PolicyDrop (snd rej) ;;;
                         throw "Connection rejected because of policy"
                       else
                         acc <- RuleSet_Search AcceptRcv
                                  (AcceptRcvRules ctx) tags ;;
                         if (0 <=? fst acc)%Z then
                           let hash := L4FlowHash pk p in
                           SetState conn TCPSynReceived ;;;
                           AddOrUpdate NetOrig hash conn ;;;
                           AddOrUpdate AppReply (L4ReverseFlowHash pk p)
                             conn ;;;
                           updConn conn (set_FlowPolicy (snd acc)) ;;;
                           ret (snd acc, Some claims)
                         else
                           reportRejectedFlow (Some conn) txLabel
                             (ManagementID ctx) context PolicyDrop None ;;;
                           throw "No matched tags - reject"
                   end
             end
         end
     end).

Definition processNetworkSynAckPacket (context : PuId) (conn : ConnId)
  : M (option FlowPolicy * option ConnectionClaims) :=
  context_Lock context ;;;
  deferring (context_Unlock context)
    (p <- gets pkt ;;
     ctx <- getCtx context ;;
     match CheckTCPAuthenticationOption pk p TCPAuthenticationOptionBaseLen
     with
     | Some _ =>
         let flowHash :=
           IP_String (SourceAddress p) +:+ ":" +:+ Itoa (SourcePort p) in
         match cache_Get (externalIPCache ctx) flowHash with
         | Some plc =>
             releaseFlow context (Some plc) ;;;
             ret (Some plc, None)
         | None =>
             let '(plc, err) :=
               GetMatchingAction (ApplicationACLs ctx) (SourceAddress p)
                 (SourcePort p) in
             match err, plc with
             | Some _, _ =>
                 reportExternalServiceFlow context plc true ;;;
                 throw "Drop it"
             | None, None =>
                 panic "invalid memory address or nil pointer dereference"
             | None, Some pl =>
                 if (0 <? Z.land (Action pl) (policy_Reject K))%Z then
                   reportExternalServiceFlow context plc true ;;;
                   throw "Drop it"
                 else
                   let '(aerr, cache') :=
                     cache_Add (externalIPCache ctx) flowHash pl in
                   updCtx context (set_externalIPCache cache') ;;;
                   match aerr with
                   | Some _ =>
                       releaseFlow context plc ;;;
                       throw "Drop it"
                   | None =>
                       SetState conn TCPData ;;;
                       releaseFlow context plc ;;;
                       ret (plc, None)
                   end
             end
         end
     | None =>
         let tcpData := ReadTCPData pk p in
         if (length tcpData =? 0)%nat then
           reportRejectedFlow None (DefaultEndPoint K) (ManagementID ctx)
             context MissingToken None ;;;
           throw "SynAck packet dropped because of missing token"
         else
           r <- attempt (parsePacketToken conn (ReadTCPData pk p)) ;;
           match r with
           | inr _ =>
               reportRejectedFlow None (DefaultEndPoint K)
                 (ManagementID ctx) context MissingToken None ;;;
               throw "Synack packet dropped because of bad claims"
           | inl claims =>
               setPkt (set_ConnectionMetadata (Some conn) p) ;;;
               p <- gets pkt ;;
               auth <- getAuth conn ;;
               if notnil (CheckTCPAuthenticationOption pk p
                            TCPAuthenticationOptionBaseLen)
               then
                 reportRejectedFlow (Some conn) (ManagementID ctx)
                   (RemoteContextID auth) context InvalidFormat None ;;;
                 throw "TCP Authentication Option not found"
               else
                 e <- detachFromPacket ;;
                 match e with
                 | Some _ =>
                     reportRejectedFlow (Some conn) (ManagementID ctx)
                       (RemoteContextID auth) context InvalidFormat None ;;;
                     throw "SynAck packet dropped because of invalid format"
                 | None =>
                     dropDetachedBytes ;;;
                     p <- gets pkt ;;
                     match T claims with
                     | None =>
                         panic
                           "invalid memory address or nil pointer dereference"
                     | Some tags =>
                         rej <- RuleSet_Search RejectTxt
                                  (RejectTxtRules ctx) tags ;;
                         if mutualAuthorization d && (0 <=? fst rej)%Z then
                           reportRejectedFlow (Some conn) (ManagementID ctx)
                             (RemoteContextID auth) context PolicyDrop
                             None ;;;
                           throw
                             "Dropping because of reject rule on transmitter"
                         else
                           acc <- RuleSet_Search AcceptTxt
                                    (AcceptTxtRules ctx) tags ;;
                           if negb (mutualAuthorization d)
                              || (0 <=? fst acc)%Z
                           then
                             SetState conn TCPSynAckReceived ;;;
                             AddOrUpdate NetReply (L4FlowHash pk p) conn ;;;
                             ret (snd acc, Some claims)
                           else
                             reportRejectedFlow (Some conn)
                               (ManagementID ctx) (RemoteContextID auth)
                               context PolicyDrop None ;;;
                             throw "Dropping packet SYNACK at the network "
                     end
                 end
           end
     end).

Definition processNetworkAckPacket (context : PuId) (conn : ConnId)
  : M (option FlowPolicy * option ConnectionClaims) :=
  c <- getConn conn ;;
  if TCPFlowState_eqb (State c) TCPData
     || TCPFlowState_eqb (State c) TCPAckSend
  then ret (None, None)
  else
    context_Lock context ;;;
    deferring (context_Unlock context)
      (p <- gets pkt ;;
       ctx <- getCtx context ;;
       if TCPFlowState_eqb (State c) TCPSynAckSend
          || TCPFlowState_eqb (State c) TCPSynReceived
       then
         if notnil (CheckTCPAuthenticationOption pk p
                      TCPAuthenticationOptionBaseLen)
         then
           reportRejectedFlow (Some conn) (DefaultEndPoint K)
             (ManagementID ctx) context InvalidFormat None ;;;
           throw "TCP Authentication Option not found"
         else
           r <- attempt (parseAckToken conn (ReadTCPData pk p)) ;;
           match r with
           | inr _ =>
               reportRejectedFlow (Some conn) (DefaultEndPoint K)
                 (ManagementID ctx) context InvalidFormat None ;;;
               throw
                 "Ack packet dropped because signature validation failed"
           | inl _ =>
               e <- detachFromPacket ;;
               match e with
               | Some _ =>
                   reportRejectedFlow (Some conn) (DefaultEndPoint K)
                     (ManagementID ctx) context InvalidFormat None ;;;
                   throw "Ack packet dropped because of invalid format"
               | None =>
                   dropDetachedBytes ;;;
                   c <- getConn conn ;;
                   reportAcceptedFlow conn (RemoteContextID (Auth c))
                     (ManagementID ctx) context (FlowPolicy_ c) ;;;
                   SetState conn TCPData ;;;
                   p <- gets pkt ;;
                   (if negb (ServiceConnection c) then
                      ConntrackTableUpdateMark
                        (IP_String (SourceAddress p))
                        (IP_String (DestinationAddress p)) (IPProto p)
                        (SourcePort p) (DestinationPort p)
                        (DefaultConnMark K)
                    else ret tt) ;;;
                   ret (None, None)
               end
           end
       else if ServiceConnection c then ret (None, None)
       else
         reportRejectedFlow (Some conn) (RemoteContextID (Auth c))
           (ManagementID ctx) context InvalidState None ;;;
         throw "Ack packet dropped - Invalid State - Duplicate").

Definition processNetworkTCPPacket (context : PuId) (conn : option ConnId)
  : M (option FlowPolicy * option ConnectionClaims) :=
  match conn with
  | None => ret (None, None)
  | Some c =>
      p <- gets pkt ;;
      let flags := Z.land (TCPFlags p) TCPSynAckMask in
      if (flags =? TCPSynMask)%Z then processNetworkSynPacket context c
      else if (flags =? TCPAckMask)%Z then processNetworkAckPacket context c
      else if (flags =? TCPSynAckMask)%Z
      then processNetworkSynAckPacket context c
      else ret (None, None)
  end.

(** *** The two entry points

    A [nil] error ([Ok]) tells the caller to let the packet through, as it
    stands in the store; an error tells it to drop the packet. *)

Definition hook (h : World -> bool * World) : M bool :=
  fun w => let '(b, w') := h w in (Ok b, w').

Definition lockedConn (conn : option ConnId) : M ConnId :=
  match conn with
  | Some c => conn_Lock c ;;; ret c
  | None => panic "invalid memory address or nil pointer dereference"
  end.

Definition processNetworkTCPPackets : M unit :=
  p <- gets pkt ;;
  let flags := Z.land (TCPFlags p) TCPSynAckMask in
  resolved <-
    (if (flags =? TCPSynMask)%Z then
       r <- netSynRetrieveState ;;
       ctx <- getCtx (fst r) ;;
       match PUType_ ctx with
       | TransientPU => ret None
       | _ => ret (Some r)
       end
     else if (flags =? TCPSynAckMask)%Z then
       r <- attempt netSynAckRetrieveState ;;
       match r with
       | inr _ => ret None
       | inl r => ret (Some r)
       end
     else
       r <- netRetrieveState ;;
       ret (Some r)) ;;
  match resolved with
  | None => ret tt
  | Some (context, conn) =>
      c <- lockedConn conn ;;
      deferring (conn_Unlock c)
        (pre <- match service d with
                | Some s => hook (PreProcessTCPNetPacket s context c)
                | None => ret true
                end ;;
         if negb pre
         then throw "Pre service processing failed for network packet"
         else
           r <- attempt (processNetworkTCPPacket context conn) ;;
           match r with
           | inr err =>
               throw ("Packet processing failed for network packet: " +:+ err)
           | inl (action, claims) =>
               post <- match service d with
                       | Some s =>
                           hook (PostProcessTCPNetPacket s action claims
                                   context c)
                       | None => ret true
                       end ;;
               if negb post
               then
                 throw "PostPost service processing failed for network packet"
               else
                 (match service d with
                  | Some _ =>
                      x <- getConn c ;;
                      if ServiceConnection x && (0 <? TimeOut x)%Z then
                        p <- gets pkt ;;
                        SetTimeOut NetReply (L4FlowHash pk p) (TimeOut x) ;;;
                        ret tt
                      else ret tt
                  | None => ret tt
                  end) ;;;
                 p <- gets pkt ;;
                 setPkt (UpdateTCPChecksum pk p)
           end)
  end.

Definition processApplicationTCPPackets : M unit :=
  p <- gets pkt ;;
  let flags := Z.land (TCPFlags p) TCPSynAckMask in
  resolved <-
    (if (flags =? TCPSynMask)%Z then
       r <- appSynRetrieveState ;;
       ret (Some r)
     else if (flags =? TCPSynAckMask)%Z then
       r <- attempt appRetrieveState ;;
       match r with
       | inr err =>
           if String.eqb (Mark p) (Itoa (Initialmarkval K - 1))
           then ret None
           else throw err
       | inl r => ret (Some r)
       end
     else
       r <- appRetrieveState ;;
       ret (Some r)) ;;
  match resolved with
  | None => ret tt
  | Some (context, conn) =>
      c <- lockedConn conn ;;
      deferring (conn_Unlock c)
        (pre <- match service d with
                | Some s => hook (PreProcessTCPAppPacket s context c)
                | None => ret true
                end ;;
         if negb pre
         then throw "Pre service processing failed for application packet"
         else
           r <- attempt (processApplicationTCPPacket context conn) ;;
           match r with
           | inr err =>
               throw ("Processing failed for application packet: " +:+ err)
           | inl action =>
               post <- match service d with
                       | Some s =>
                           hook (PostProcessTCPAppPacket s action context c)
                       | None => ret true
                       end ;;
               if negb post
               then
                 throw "Post service processing failed for application packet"
               else
                 p <- gets pkt ;;
                 setPkt (UpdateTCPChecksum pk p)
           end)
  end.

End DatapathTCP.

(** ** A small concrete datapath

    One PU behind a host-mode enforcer, with a toy token engine, used to run
    the handlers on concrete packets. *)
Module Fixture.

Definition K0 : Constants :=
  mkConstants "034"%byte "AporetoContextID" "@port" "default" "default"
    0xEEEE 100 2.

Definition with_payload (o dta : bytes) (p : Packet) : Packet :=
  mkPacket (SourceAddress p) (DestinationAddress p) (SourcePort p)
    (DestinationPort p) (IPProto p) (TCPFlags p) (Mark p) o dta
    (ConnectionMetadata p).

Definition flowKey (a b : IP) (x y : Z) : string :=
  IP_String a +:+ ":" +:+ IP_String b +:+ ":" +:+ Itoa x +:+ ":" +:+ Itoa y.

Definition pk0 : PacketOps :=
  mkPacketOps
    (fun p => flowKey (SourceAddress p) (DestinationAddress p)
                (SourcePort p) (DestinationPort p))
    (fun p => flowKey (DestinationAddress p) (SourceAddress p)
                (DestinationPort p) (SourcePort p))
    (fun p t => match t with
                | PacketTypeNetwork => Itoa (DestinationPort p)
                | PacketTypeApplication => Itoa (SourcePort p)
                end)
    (fun p _ => match tcpOptions p with
                | [] => Some "option not found"
                | _ => None
                end)
    tcpData
    (fun p o dta => (with_payload (tcpOptions p ++ o) dta p, None))
    (fun p _ => (with_payload [] (tcpData p) p, None))
    (fun p => with_payload (tcpOptions p) [] p)
    (fun p => p).

(** The [n]-th nonce: 32 copies of the byte [n mod 256]. *)
Definition nonce_of (n : nat) : bytes :=
  repeat (default "000"%byte (Byte.of_N (N.of_nat n mod 256))) 32.

(** A token is its nonce followed by a body; an ACK token is the two
    nonces, 64 bytes. *)
Definition engine0 : TokenEngine :=
  mkTokenEngine
    (fun isAck claims n =>
       if isAck then (LCL claims ++ RMT claims, nonce_of n, None)
       else (nonce_of n ++ RMT claims, nonce_of n, None))
    (fun isAck token _ =>
       if (length token <? 32)%nat
       then (None, [], None, Some "token too short")
       else if isAck
       then (Some (mkClaims None (take 32 token) (drop 32 token)),
             [], None, None)
       else (Some (mkClaims (Some [("AporetoContextID", "peer")]) [] []),
             take 32 token, None, None))
    (fun token n => (nonce_of n ++ drop 32 token, nonce_of n, None)).

(** An engine whose signing key is unusable. *)
Definition failing_engine : TokenEngine :=
  mkTokenEngine
    (fun _ _ _ => ([], [], Some "signing failed"))
    (Decode engine0)
    (fun token _ => (token, [], Some "cannot randomize")).

Definition E0 : Env :=
  mkEnv K0 pk0 (fun n => (1000 * Z.of_nat n)%Z)
    (fun size n => (nonce_of n, None)).

Definition d0 : Datapath := mkDatapath LocalServer true 64 engine0 None.

Definition d_failing : Datapath :=
  mkDatapath LocalServer true 64 failing_engine None.

Definition selects (k v : string) : TagStore -> bool :=
  fun t => let '(v', ok) := TagStore_Get t k in ok && String.eqb v' v.

Definition accept_peer : FlowPolicy := mkFlowPolicy 1 "accept-peer".
Definition reject_peer : FlowPolicy := mkFlowPolicy 2 "reject-peer".
Definition accept_ext : FlowPolicy := mkFlowPolicy 1 "accept-ext".

Definition no_acl : ACLCache := mkACL (fun _ _ => (None, Some "No match")).

Definition emptyCache {V} : Cache V := mkCache 60 ∅.

(** A PU that both accepts and rejects the peer's identity on receive. *)
Definition pu0 : PUContext :=
  mkPUContext "pu0" LinuxProcessPU (Some [("AporetoContextID", "pu0")])
    [mkRule (selects "AporetoContextID" "peer") accept_peer]
    [mkRule (selects "AporetoContextID" "peer") reject_peer]
    [mkRule (selects "AporetoContextID" "peer") accept_peer]
    []
    no_acl no_acl
    (mkCache 60 {["10.0.0.9:80" := (accept_ext, 60%Z)]})
    [] 0.

Definition conn0 (st : TCPFlowState) : TCPConnection :=
  mkTCPConnection st
    (mkAuthInfo (nonce_of 7) (nonce_of 9) "" "peer" None "" "")
    (Some 0%nat) (Some accept_peer) false 0.

Definition noCaches : Caches :=
  mkCaches emptyCache emptyCache emptyCache emptyCache emptyCache
    emptyCache emptyCache emptyCache.

(** 10.0.0.1 and 10.0.0.2 *)
Definition ipA : IP := 0x0A000001%Z.
Definition ipB : IP := 0x0A000002%Z.

Definition ipExt : IP := 0x0A000009%Z.

Definition packet0 (src dst : IP) (flags : Z) (mark : string)
    (o dta : bytes) : Packet :=
  mkPacket src dst 40000 80 6 flags mark o dta None.

Definition world0 (cs : gmap nat TCPConnection) (ps : gmap nat PUContext)
    (c : Caches) (p : Packet) : World :=
  mkWorld cs ps c p 0 0 [].

Definition authOption : bytes := ["034"%byte; "004"%byte; "000"%byte; "000"%byte].

(** [pu0] holding a SYN token that is still good at the first clock
    reading. *)
Definition pu_cached : PUContext :=
  set_synExpiration 5000 (set_synToken (nonce_of 1 ++ nonce_of 2) pu0).

(** The peer's ACK: its own nonce, then the nonce it believes is ours. *)
Definition good_ack : bytes := nonce_of 9 ++ nonce_of 7.
Definition bad_ack : bytes := nonce_of 9 ++ nonce_of 8.

(** An application SYN from the PU, before any token is attached. *)
Definition w_app_syn (st : TCPFlowState) (pu : PUContext) (dst : IP)
  : World :=
  world0 {[0%nat := conn0 st]} {[0%nat := pu]} noCaches
    (packet0 ipA dst 0x02 "100" [] []).

(** An application ACK of the connection. *)
Definition w_app_ack (st : TCPFlowState) : World :=
  world0 {[0%nat := conn0 st]} {[0%nat := pu0]} noCaches
    (packet0 ipA ipB 0x10 "100" [] []).

(** A network ACK that carries the option and [token]. *)
Definition w_net_ack (st : TCPFlowState) (token : bytes) : World :=
  world0 {[0%nat := conn0 st]} {[0%nat := pu0]} noCaches
    (packet0 ipB ipA 0x10 "" authOption token).

(** A network SYN that carries the option and a token. *)
Definition w_net_syn : World :=
  world0 {[0%nat := conn0 TCPSynSend]} {[0%nat := pu0]} noCaches
    (packet0 ipB ipA 0x02 "" authOption (nonce_of 3)).

(** Packets that reach an enforcer which knows no PU and no flow. *)
Definition w_unknown (flags : Z) (mark : string) (o dta : bytes) : World :=
  world0 ∅ ∅ noCaches (packet0 ipB ipA flags mark o dta).

End Fixture.

(** * Properties *)

(** ** Proof support *)

#[local] Arguments IP_String : simpl never.
#[local] Arguments Itoa : simpl never.
#[local] Arguments createTCPAuthenticationOption : simpl never.
#[local] Arguments contextFromIP : simpl never.
#[local] Arguments Search : simpl never.
#[local] Arguments AppendKeyValue : simpl never.
#[local] Arguments TagStore_Get : simpl never.
#[local] Arguments cache_Get : simpl never.
#[local] Arguments cache_Add : simpl never.
#[local] Arguments cache_Remove : simpl never.
#[local] Arguments cache_AddOrUpdate : simpl never.
#[local] Arguments String.eqb : simpl never.
#[local] Arguments String.append : simpl never.
#[local] Arguments Z.eqb : simpl nomatch.
#[local] Arguments Z.ltb : simpl never.
#[local] Arguments Z.leb : simpl never.
#[local] Arguments Z.of_nat : simpl never.
#[local] Arguments Nat.ltb : simpl never.
#[local] Arguments Nat.eqb : simpl never.

(** Unfold the monad and the store primitives, then reduce. *)
Ltac run :=
  unfold AddOrUpdate, Remove, GetReset, SetTimeOut,
    reportRejectedFlow, reportAcceptedFlow, reportExternalServiceFlow,
    reportReverseExternalServiceFlow, ConntrackTableUpdateMark, RuleSet_Search,
    attachToPacket, detachFromPacket, dropDetachedBytes, lockedConn, hook,
    GetState, SetState, getAuth, updAuth, updConn, getConn, updCtx, getCtx,
    conn_Lock, conn_Unlock, context_Lock, context_Unlock, time_Now, draw,
    setPkt, emit, attempt, deferring, gets, modify, throw, panic, ret, bind;
  cbn.

(** Case analysis on every test the run is stuck on. *)
Ltac split_paths :=
  rewrite ?lookup_insert_eq; cbn;
  repeat (match goal with
          | |- context [match ?x with _ => _ end] =>
              lazymatch x with
              | context [match _ with _ => _ end] => fail
              | _ => destruct x eqn:?
              end
          | |- context [if ?x then _ else _] =>
              lazymatch x with
              | context [match _ with _ => _ end] => fail
              | context [if _ then _ else _] => fail
              | _ => destruct x eqn:?
              end
          end; cbn; rewrite ?lookup_insert_eq; cbn).

Ltac wrong_state :=
  first [intros [?|?]; discriminate | intros ?; discriminate].

Ltac four_parts := (split; [|split; [|split]]); try wrong_state.

Lemma bytes_Compare_refl a : bytes_Compare a a = 0%Z.
Proof.
  induction a as [|x a IH]; simpl; [easy|]. now rewrite N.compare_refl.
Qed.

Lemma to_N_inj x y : Byte.to_N x = Byte.to_N y -> x = y.
Proof.
  intros H. assert (Some x = Some y) as [= ->]; [|easy].
  rewrite <- (Byte.of_to_N x), <- (Byte.of_to_N y). now rewrite H.
Qed.

Lemma bytes_Compare_eq a b : bytes_Compare a b = 0%Z <-> a = b.
Proof.
  split; [|intros ->; apply bytes_Compare_refl].
  revert b. induction a as [|x a IH]; intros [|y b]; simpl; try easy.
  destruct (N.compare_spec (Byte.to_N x) (Byte.to_N y)) as [Heq| |]; try easy.
  intros H. apply to_N_inj in Heq. apply IH in H. congruence.
Qed.

Section CacheFacts.
Context {V : Type}.

Lemma cache_Get_None (c : Cache V) k :
  cache_Get c k = None <-> data c !! k = None.
Proof.
  unfold cache_Get. destruct (data c !! k); simpl; split; congruence.
Qed.

Lemma cache_GetReset_miss (c : Cache V) k dur :
  cache_Get c k = None -> cache_GetReset c k dur = (None, c).
Proof.
  intros H%cache_Get_None. unfold cache_GetReset. now rewrite H.
Qed.

Lemma cache_Get_AddOrUpdate (c : Cache V) k v :
  cache_Get (cache_AddOrUpdate c k v) k = Some v.
Proof.
  unfold cache_Get, cache_AddOrUpdate. simpl. now rewrite lookup_insert_eq.
Qed.

Lemma cache_Get_Remove (c : Cache V) k :
  cache_Get (snd (cache_Remove c k)) k = None.
Proof.
  unfold cache_Get, cache_Remove. destruct (data c !! k) eqn:H; simpl.
  - now rewrite lookup_delete_eq.
  - now rewrite H.
Qed.
End CacheFacts.

Lemma bind_Ok {A B} (m : M A) (k : A -> M B) w a w' :
  m w = (Ok a, w') -> bind m k w = k a w'.
Proof. unfold bind. now intros ->. Qed.

Section Properties.

Context {E : Env}.
Variable d : Datapath.

(** *** Context lookup reads the caches and nothing else *)

Lemma contextFromIP_cases app ip mark port w :
  (exists pu, contextFromIP d app ip mark port w = (Ok pu, w))
  \/ (exists e, contextFromIP d app ip mark port w = (Error e, w)).
Proof.
  unfold contextFromIP. run.
  repeat match goal with
         | |- context [match ?x with _ => _ end] => destruct x
         end; eauto.
Qed.

Lemma contextFromIP_err app ip mark port w :
  is_err (fst (contextFromIP d app ip mark port w)) = true ->
  exists e, contextFromIP d app ip mark port w = (Error e, w).
Proof.
  intros H.
  destruct (contextFromIP_cases app ip mark port w) as [[pu Hp]|[e He]].
  - rewrite Hp in H. discriminate.
  - eauto.
Qed.

(** *** Token creation and parsing *)

Lemma createSynPacketToken_reuse context conn w ctx c token nonce :
  pus w !! context = Some ctx ->
  conns w !! conn = Some c ->
  (clock (timeCalls w) <? synExpiration ctx)%Z
    && (0 <? length (synToken ctx))%nat = true ->
  Randomize (tokenEngine d) (synToken ctx) (randCalls w)
    = (token, nonce, None) ->
  let '(r, w') := createSynPacketToken d context conn w in
  r = Ok token
  /\ pus w' !! context = Some (set_synToken token ctx)
  /\ conns w' !! conn = Some (set_Auth (set_LocalContext nonce (Auth c)) c)
  /\ trace w' = trace w ++ [EvRandomize (synToken ctx)].
Proof.
  intros Hctx Hc Huse Hrand.
  unfold createSynPacketToken. run.
  rewrite Hctx. cbn. rewrite Huse. cbn. rewrite Hrand. cbn.
  rewrite Hctx. cbn. rewrite Hc. cbn.
  rewrite !lookup_insert_eq. auto.
Qed.

Lemma createSynPacketToken_fresh context conn w ctx c token nonce err :
  pus w !! context = Some ctx ->
  conns w !! conn = Some c ->
  (clock (timeCalls w) <? synExpiration ctx)%Z
    && (0 <? length (synToken ctx))%nat = false ->
  CreateAndSign (tokenEngine d) false (mkClaims (Identity ctx) [] [])
    (randCalls w) = (token, nonce, err) ->
  let '(r, w') := createSynPacketToken d context conn w in
  trace w' =
    trace w ++ [EvCreateAndSign false (mkClaims (Identity ctx) [] [])]
  /\ conns w' !! conn = Some (set_Auth (set_LocalContext nonce (Auth c)) c)
  /\ match err with
     | None =>
         r = Ok token
         /\ pus w' !! context =
             Some (set_synExpiration
                     (clock (S (timeCalls w)) + Millisecond * 500)%Z
                     (set_synToken token ctx))
     | Some _ =>
         r = Ok []
         /\ pus w' !! context = Some (set_synToken token ctx)
     end.
Proof.
  intros Hctx Hc Huse Hcs.
  unfold createSynPacketToken. run.
  rewrite Hctx. cbn. rewrite Huse. cbn. rewrite Hctx. cbn. rewrite Hcs. cbn.
  rewrite Hctx. cbn. rewrite Hc. cbn.
  destruct err; cbn; rewrite ?lookup_insert_eq; cbn;
    rewrite ?lookup_insert_eq; auto.
Qed.

Lemma createSynAckPacketToken_spec context conn w ctx c token nonce err :
  pus w !! context = Some ctx ->
  conns w !! conn = Some c ->
  CreateAndSign (tokenEngine d) false
    (mkClaims (Identity ctx) [] (RemoteContext (Auth c))) (randCalls w)
    = (token, nonce, err) ->
  let '(r, w') := createSynAckPacketToken d context conn w in
  r = Ok (match err with None => token | Some _ => [] end)
  /\ pus w' !! context = Some (set_synToken token ctx)
  /\ conns w' !! conn = Some (set_Auth (set_LocalContext nonce (Auth c)) c).
Proof.
  intros Hctx Hc Hcs.
  unfold createSynAckPacketToken. run.
  rewrite Hctx. cbn. rewrite Hc. cbn. rewrite Hcs. cbn.
  rewrite Hctx. cbn. rewrite Hc. cbn.
  destruct err; cbn; rewrite ?lookup_insert_eq; auto.
Qed.

Lemma parsePacketToken_spec conn w c data :
  conns w !! conn = Some c ->
  let '(r, w') := parsePacketToken d conn data w in
  match r with
  | Ok cl =>
      exists nonce cert,
        Decode (tokenEngine d) false data (RemotePublicKey (Auth c))
          = (Some cl, nonce, cert, None)
        /\ (exists c', conns w' !! conn = Some c'
              /\ RemoteContext (Auth c') = nonce
              /\ LocalContext (Auth c') = LocalContext (Auth c)
              /\ State c' = State c)
  | _ => conns w' = conns w
  end.
Proof.
  intros Hc. unfold parsePacketToken. run. rewrite Hc. cbn.
  destruct (Decode (tokenEngine d) false data (RemotePublicKey (Auth c)))
    as [[[cl nonce] cert] [e|]]; cbn; [reflexivity|].
  destruct cl as [cl|]; cbn; [|reflexivity].
  destruct (T cl) as [t|]; cbn; [|reflexivity].
  destruct (TagStore_Get t (TransmitterLabel K)) as [id [|]]; cbn;
    [|reflexivity].
  rewrite Hc. cbn. rewrite lookup_insert_eq. eauto 10.
Qed.

Lemma ack_tokens_keep_nonces context conn w data :
  conns (snd (createAckPacketToken d context conn w)) = conns w
  /\ conns (snd (parseAckToken d conn data w)) = conns w.
Proof.
  unfold createAckPacketToken, parseAckToken. run.
  split; split_paths; reflexivity.
Qed.

Lemma NewTCPConnection_spec w :
  let '(r, w') := NewTCPConnection w in
  let id := fresh (dom (conns w)) in
  r = Ok id
  /\ conns w !! id = None
  /\ conns w' =
      <[id := mkTCPConnection TCPSynSend
                (set_LocalContext
                   (fst (GenerateRandomBytes 32 (randCalls w)))
                   zero_AuthInfo) None None false 0]> (conns w).
Proof.
  unfold NewTCPConnection, initAuthInfo. run.
  destruct (GenerateRandomBytes 32 (randCalls w)) as [nonse e]. cbn.
  split; [reflexivity|]. split; [|reflexivity].
  apply not_elem_of_dom, is_fresh.
Qed.

(** *** The order of policy searches on the network side *)

Lemma syn_search_order context conn w :
  exists evs,
    trace (snd (processNetworkSynPacket d context conn w)) = trace w ++ evs
    /\ (searched evs = [] \/ searched evs = [RejectRcv]
        \/ searched evs = [RejectRcv; AcceptRcv]).
Proof.
  unfold processNetworkSynPacket, parsePacketToken. run.
  split_paths.
  all: eexists; split; [rewrite <- ?app_assoc; cbn; reflexivity|cbn; auto].
Qed.

Lemma synack_search_order context conn w :
  exists evs,
    trace (snd (processNetworkSynAckPacket d context conn w))
      = trace w ++ evs
    /\ (searched evs = [] \/ searched evs = [RejectTxt]
        \/ searched evs = [RejectTxt; AcceptTxt]).
Proof.
  unfold processNetworkSynAckPacket, parsePacketToken, releaseFlow. run.
  split_paths.
  all: eexists; split; [rewrite <- ?app_assoc; cbn; reflexivity|cbn; auto].
Qed.

Lemma syn_reject_drops context conn w c ctx cl nonce cert tags tx p1 :
  conns w !! conn = Some c ->
  pus w !! context = Some ctx ->
  CheckTCPAuthenticationOption pk (pkt w) TCPAuthenticationOptionBaseLen
    = None ->
  Decode (tokenEngine d) false (ReadTCPData pk (pkt w))
    (RemotePublicKey (Auth c)) = (Some cl, nonce, cert, None) ->
  T cl = Some tags ->
  TagStore_Get tags (TransmitterLabel K) = (tx, true) ->
  TCPDataDetach pk (pkt w) TCPAuthenticationOptionBaseLen = (p1, None) ->
  let p2 := DropDetachedBytes pk p1 in
  let tags' := AppendKeyValue tags (PortNumberLabelString K)
                 (Itoa (DestinationPort p2)) in
  (0 <= fst (Search (RejectRcvRules ctx) tags'))%Z ->
  let '(r, w') := processNetworkSynPacket d context conn w in
  is_err r = true
  /\ trace w' =
       trace w ++
       [EvContextLock context; EvDecode false (ReadTCPData pk (pkt w));
        EvSearch RejectRcv tags';
        EvRejectedFlow (L4FlowHash pk p2) (Some conn) tx (ManagementID ctx)
          context PolicyDrop (snd (Search (RejectRcvRules ctx) tags'));
        EvContextUnlock context]
  /\ caches w' = caches w
  /\ StateOf w' conn = Some (State c).
Proof.
  intros Hc Hctx Hchk Hdec HT Htx Hdet p2 tags' Hrej.
  unfold StateOf, processNetworkSynPacket, parsePacketToken. run.
  apply Z.leb_le in Hrej. subst p2 tags'.
  repeat (progress (rewrite ?Hctx, ?Hchk, ?Hc, ?Hdec, ?HT, ?Htx, ?Hdet,
                      ?Hrej, ?lookup_insert_eq; cbn)).
  rewrite <- !app_assoc. cbn. auto.
Qed.

(** *** The claims *)

(** C1.  A network ACK that arrives while the connection is in
    [TCPSynAckSend] or [TCPSynReceived] is accepted only if the token
    decodes and its remote nonce is the connection's local context and its
    local nonce the connection's remote context.  When the option is there
    and the token decodes but either comparison fails, the handler returns
    an error, reports the flow once with [InvalidFormat], and leaves every
    connection (so the state too) and the packet as they were. *)
Theorem ack_token_nonces_checked context conn w c ctx :
  conns w !! conn = Some c ->
  pus w !! context = Some ctx ->
  State c = TCPSynAckSend \/ State c = TCPSynReceived ->
  let data := ReadTCPData pk (pkt w) in
  let '(r, w') := processNetworkAckPacket d context conn w in
  (forall x, r = Ok x ->
     exists cl nonce cert,
       Decode (tokenEngine d) true data (RemotePublicKey (Auth c))
         = (Some cl, nonce, cert, None)
       /\ RMT cl = LocalContext (Auth c)
       /\ LCL cl = RemoteContext (Auth c))
  /\ (forall cl nonce cert,
        CheckTCPAuthenticationOption pk (pkt w)
          TCPAuthenticationOptionBaseLen = None ->
        Decode (tokenEngine d) true data (RemotePublicKey (Auth c))
          = (Some cl, nonce, cert, None) ->
        RMT cl <> LocalContext (Auth c)
        \/ LCL cl <> RemoteContext (Auth c) ->
        is_err r = true
        /\ trace w' =
             trace w ++
             [EvContextLock context; EvDecode true data;
              EvRejectedFlow (L4FlowHash pk (pkt w)) (Some conn)
                (DefaultEndPoint K) (ManagementID ctx) context
                InvalidFormat None;
              EvContextUnlock context]
        /\ conns w' = conns w
        /\ pkt w' = pkt w).
Proof.
  intros Hc Hctx Hst. cbv zeta.
  assert (Hs1 : TCPFlowState_eqb (State c) TCPData
                || TCPFlowState_eqb (State c) TCPAckSend = false)
    by (destruct Hst as [-> | ->]; reflexivity).
  assert (Hs2 : TCPFlowState_eqb (State c) TCPSynAckSend
                || TCPFlowState_eqb (State c) TCPSynReceived = true)
    by (destruct Hst as [-> | ->]; reflexivity).
  unfold processNetworkAckPacket, parseAckToken. run.
  rewrite Hc. cbn. rewrite Hs1. cbn. rewrite Hctx. cbn. rewrite Hs2.
  destruct (CheckTCPAuthenticationOption pk (pkt w)
              TCPAuthenticationOptionBaseLen) as [e|] eqn:Hchk; cbn.
  { split; [intros x [=]|intros; discriminate]. }
  rewrite Hc. cbn.
  destruct (Decode (tokenEngine d) true (ReadTCPData pk (pkt w))
              (RemotePublicKey (Auth c)))
    as [[[cl nonce] cert] err] eqn:Hdec.
  destruct err as [e|]; cbn.
  { split; [intros x [=]|intros; discriminate]. }
  destruct cl as [cl|]; cbn.
  2: { split; [intros x [=]|intros; discriminate]. }
  destruct (bytes_Compare (RMT cl) (LocalContext (Auth c)) =? 0)%Z eqn:HL;
    destruct (bytes_Compare (LCL cl) (RemoteContext (Auth c)) =? 0)%Z
      eqn:HR;
    cbn.
  1: { apply Z.eqb_eq, bytes_Compare_eq in HL.
       apply Z.eqb_eq, bytes_Compare_eq in HR.
       match goal with
       | |- let '(_, _) := ?X in _ => destruct X as [r w']
       end.
       split.
       - intros x _. eauto 6.
       - intros cl0 n0 c0 _ [= <- _ _] [H|H]; contradiction. }
  all: split; [intros x [=]|].
  all: intros cl0 n0 c0 _ [= <- _ _] _; rewrite <- !app_assoc; cbn; auto.
Qed.

(** C2, as the code behaves (the code departs from the claim).  When no
    cached token can be reused and [CreateAndSign] fails, the two token
    builders return an empty token and a nil error, after they have
    overwritten the local context with what the failed call returned; the
    SYN handler then goes on: it attaches the empty token, sets the state
    to [TCPSynSend] and records the connection in [app_orig]. *)
Theorem token_creation_error_swallowed context conn w ctx c token nonce e :
  pus w !! context = Some ctx ->
  conns w !! conn = Some c ->
  (clock (timeCalls w) <? synExpiration ctx)%Z
    && (0 <? length (synToken ctx))%nat = false ->
  CreateAndSign (tokenEngine d) false (mkClaims (Identity ctx) [] [])
    (randCalls w) = (token, nonce, Some e) ->
  (fst (createSynPacketToken d context conn w) = Ok []
   /\ LocalContextOf (snd (createSynPacketToken d context conn w)) conn
      = Some nonce)
  /\ (forall token' nonce' e',
        CreateAndSign (tokenEngine d) false
          (mkClaims (Identity ctx) [] (RemoteContext (Auth c)))
          (randCalls w) = (token', nonce', Some e') ->
        fst (createSynAckPacketToken d context conn w) = Ok []
        /\ LocalContextOf (snd (createSynAckPacketToken d context conn w))
             conn = Some nonce')
  /\ (forall p',
        cache_Get (externalIPCache ctx)
          (IP_String (DestinationAddress (pkt w)) +:+ ":" +:+
           Itoa (DestinationPort (pkt w))) = None ->
        TCPDataAttach pk (pkt w) (createTCPAuthenticationOption []) []
          = (p', None) ->
        let '(r, w') := processApplicationSynPacket d context conn w in
        r = Ok None
        /\ pkt w' = p'
        /\ StateOf w' conn = Some TCPSynSend
        /\ cache_Get (appOrigConnectionTracker (caches w'))
             (L4FlowHash pk (pkt w)) = Some conn).
Proof.
  intros Hctx Hc Huse Hcs. split; [|split].
  - pose proof (createSynPacketToken_fresh _ _ _ _ _ _ _ _ Hctx Hc Huse Hcs)
      as H.
    destruct (createSynPacketToken d context conn w) as [r w'].
    destruct H as (_ & Hcn & -> & _). unfold LocalContextOf. cbn.
    rewrite Hcn. auto.
  - intros token' nonce' e' Hcs'.
    pose proof (createSynAckPacketToken_spec _ _ _ _ _ _ _ _ Hctx Hc Hcs')
      as H.
    destruct (createSynAckPacketToken d context conn w) as [r w'].
    destruct H as (-> & _ & Hcn). unfold LocalContextOf. cbn.
    rewrite Hcn. auto.
  - intros p' Hmiss Hatt.
    unfold StateOf, processApplicationSynPacket, createSynPacketToken. run.
    repeat (progress (rewrite ?Hctx, ?Hmiss, ?Huse, ?Hcs, ?Hc, ?Hatt,
                        ?lookup_insert_eq; cbn)).
    rewrite cache_Get_AddOrUpdate. auto.
Qed.

(** C3, as the code behaves.  A network SYN-ACK whose source-port hash has
    no entry in the source-port cache is ignored: the entry point returns a
    nil error, so the packet is let through as it came, and nothing else
    happens, no lock, no report to the collector, no change of a cache, a
    connection or the packet. *)
Theorem net_synack_without_state_passes w :
  Z.land (TCPFlags (pkt w)) TCPSynAckMask = TCPSynAckMask ->
  cache_Get (sourcePortConnectionCache (caches w))
    (SourcePortHash pk (pkt w) PacketTypeNetwork) = None ->
  processNetworkTCPPackets d w = (Ok tt, w).
Proof.
  intros Hf Hmiss.
  unfold processNetworkTCPPackets, netSynAckRetrieveState. run.
  rewrite Hf. cbn.
  rewrite (cache_GetReset_miss _ _ _ Hmiss). cbn.
  destruct w as [? ? [] ? ? ? ?]; reflexivity.
Qed.

(** C4.  On the network side the reject rule set is searched before the
    accept rule set: whatever a SYN or a SYN-ACK handler does, the rule
    sets it searches are none, the reject set alone, or the reject set and
    then the accept set.  And a SYN whose token decodes to claims that
    match a [RejectRcv] rule is dropped (whether or not an [AcceptRcv] rule
    matches them too): the handler returns an error, reports the flow with
    [PolicyDrop] and the rejecting policy, never searches the accept rules,
    and leaves every cache, [net_orig] among them, and the state of the
    connection as they were. *)
Theorem reject_rules_searched_first context conn w :
  (exists evs,
     trace (snd (processNetworkSynPacket d context conn w)) = trace w ++ evs
     /\ (searched evs = [] \/ searched evs = [RejectRcv]
         \/ searched evs = [RejectRcv; AcceptRcv]))
  /\ (exists evs,
        trace (snd (processNetworkSynAckPacket d context conn w))
          = trace w ++ evs
        /\ (searched evs = [] \/ searched evs = [RejectTxt]
            \/ searched evs = [RejectTxt; AcceptTxt]))
  /\ (forall c ctx cl nonce cert tags tx p1,
        conns w !! conn = Some c ->
        pus w !! context = Some ctx ->
        CheckTCPAuthenticationOption pk (pkt w)
          TCPAuthenticationOptionBaseLen = None ->
        Decode (tokenEngine d) false (ReadTCPData pk (pkt w))
          (RemotePublicKey (Auth c)) = (Some cl, nonce, cert, None) ->
        T cl = Some tags ->
        TagStore_Get tags (TransmitterLabel K) = (tx, true) ->
        TCPDataDetach pk (pkt w) TCPAuthenticationOptionBaseLen
          = (p1, None) ->
        let p2 := DropDetachedBytes pk p1 in
        let tags' := AppendKeyValue tags (PortNumberLabelString K)
                       (Itoa (DestinationPort p2)) in
        (0 <= fst (Search (RejectRcvRules ctx) tags'))%Z ->
        let '(r, w') := processNetworkSynPacket d context conn w in
        is_err r = true
        /\ trace w' =
             trace w ++
             [EvContextLock context;
              EvDecode false (ReadTCPData pk (pkt w));
              EvSearch RejectRcv tags';
              EvRejectedFlow (L4FlowHash pk p2) (Some conn) tx
                (ManagementID ctx) context PolicyDrop
                (snd (Search (RejectRcvRules ctx) tags'));
              EvContextUnlock context]
        /\ caches w' = caches w
        /\ StateOf w' conn = Some (State c)).
Proof.
  split; [apply syn_search_order|].
  split; [apply synack_search_order|].
  intros. eapply syn_reject_drops; eauto.
Qed.

(** C5, as the code behaves (the code departs from the claim).  A network
    SYN for which no PU context is found, on an enforcer that is not a
    remote container, gets a fresh transient context and no connection, and
    the entry point returns a nil error at once: no lock, no report, no
    cache or connection touched.  The packet is left exactly as it came,
    with whatever option and payload it carried. *)
Theorem transient_syn_passes_untouched w :
  Z.land (TCPFlags (pkt w)) TCPSynAckMask = TCPSynMask ->
  mode d <> RemoteContainer ->
  is_err (fst (contextFromIP d false
                 (IP_String (DestinationAddress (pkt w))) (Mark (pkt w))
                 (Itoa (DestinationPort (pkt w))) w)) = true ->
  let transient := fresh (dom (pus w)) in
  let w' := set_pus (<[transient := zero_PUContext TransientPU]> (pus w)) w in
  netSynRetrieveState d w = (Ok (transient, None), w')
  /\ processNetworkTCPPackets d w = (Ok tt, w')
  /\ pkt w' = pkt w
  /\ conns w' = conns w
  /\ caches w' = caches w
  /\ trace w' = trace w.
Proof.
  intros Hf Hmode [e He]%contextFromIP_err. cbv zeta.
  assert (Hm : negb (ModeType_eqb (mode d) RemoteContainer) = true)
    by (destruct (mode d); simpl; congruence).
  assert (Hr : netSynRetrieveState d w =
               (Ok (fresh (dom (pus w)), None),
                set_pus (<[fresh (dom (pus w)) :=
                             zero_PUContext TransientPU]> (pus w)) w)).
  { unfold netSynRetrieveState. run. rewrite He, Hm. reflexivity. }
  split; [exact Hr|]. split; [|auto].
  unfold processNetworkTCPPackets.
  rewrite (bind_Ok _ _ w (pkt w) w) by reflexivity.
  cbv beta zeta. rewrite Hf, Z.eqb_refl.
  rewrite (bind_Ok _ _ w None
             (set_pus (<[fresh (dom (pus w)) :=
                          zero_PUContext TransientPU]> (pus w)) w));
    [reflexivity|].
  rewrite (bind_Ok _ _ _ _ _ Hr). run. rewrite lookup_insert_eq.
  reflexivity.
Qed.

(** C6.  The application-side ACK handler, state by state.  In
    [TCPSynAckReceived] or [TCPSynSend] it asks the token engine for an ACK
    token over both nonces of the connection; when the engine gives one, a
    length other than [ackSize] is an error that changes no connection and
    not the packet, and the right length, once option and token are
    attached, sets the state to [TCPAckSend] and programs conntrack exactly
    when the connection is not a service connection and the source and
    destination addresses differ.  In [TCPAckSend] it removes the
    source-port entry, sets the state to [TCPData] and passes.  In
    [TCPData] it passes and changes nothing.  In the two remaining states
    it returns an error and changes nothing. *)
Theorem app_ack_state_machine context conn w c :
  conns w !! conn = Some c ->
  let p := pkt w in
  let claims :=
    mkClaims None (LocalContext (Auth c)) (RemoteContext (Auth c)) in
  let '(r, w') := processApplicationAckPacket d context conn w in
  (State c = TCPSynAckReceived \/ State c = TCPSynSend ->
     forall token nonce,
       CreateAndSign (tokenEngine d) true claims (randCalls w)
         = (token, nonce, None) ->
       (Z.of_nat (length token) <> ackSize d ->
          is_err r = true /\ conns w' = conns w /\ pkt w' = p)
       /\ (Z.of_nat (length token) = ackSize d ->
           forall p',
             TCPDataAttach pk p (createTCPAuthenticationOption []) token
               = (p', None) ->
             r = Ok None
             /\ pkt w' = p'
             /\ conns w' = <[conn := set_State TCPAckSend c]> (conns w)
             /\ trace w' =
                  trace w ++
                  [EvContextLock context; EvCreateAndSign true claims;
                   EvContextUnlock context] ++
                  (if negb (ServiceConnection c)
                      && negb (String.eqb
                                 (IP_String (SourceAddress p'))
                                 (IP_String (DestinationAddress p')))
                   then
                     [EvConntrackUpdateMark
                        (IP_String (SourceAddress p'))
                        (IP_String (DestinationAddress p')) (IPProto p')
                        (SourcePort p') (DestinationPort p')
                        (DefaultConnMark K)]
                   else [])))
  /\ (State c = TCPAckSend ->
       r = Ok None
       /\ cache_Get (sourcePortConnectionCache (caches w'))
            (SourcePortHash pk p PacketTypeApplication) = None
       /\ conns w' = <[conn := set_State TCPData c]> (conns w)
       /\ pkt w' = p)
  /\ (State c = TCPData -> r = Ok None /\ w' = w)
  /\ (State c = TCPSynReceived \/ State c = TCPSynAckSend ->
       is_err r = true /\ w' = w).
Proof.
  intros Hc. cbv zeta.
  unfold processApplicationAckPacket, createAckPacketToken. run.
  rewrite Hc. cbn.
  assert (Hrm := cache_Get_Remove (sourcePortConnectionCache (caches w))
                   (SourcePortHash pk (pkt w) PacketTypeApplication)).
  destruct (State c) eqn:Hst; cbn.
  1, 4: rewrite Hc; cbn;
    destruct (CreateAndSign (tokenEngine d) true _ (randCalls w))
      as [[tok nn] [err|]] eqn:Hcs; cbn;
    [ four_parts; intros _ token nonce [=] | ];
    (destruct (Z.of_nat (length tok) =? ackSize d)%Z eqn:Hlen; cbn;
     [ apply Z.eqb_eq in Hlen
     | apply Z.eqb_neq in Hlen; four_parts;
       intros _ token nonce [= <- <-]; split;
       [auto|intros; contradiction] ]);
    (destruct (TCPDataAttach pk (pkt w)
                 (createTCPAuthenticationOption []) tok)
       as [p1 [e1|]] eqn:Hatt; cbn;
     [ four_parts; intros _ token nonce [= <- <-];
       split; [intros; contradiction|]; intros _ p' Hp';
       rewrite Hatt in Hp'; discriminate | ]);
    rewrite Hc; cbn;
    destruct (negb (ServiceConnection c) && _) eqn:Hct; cbn;
    four_parts; intros _ token nonce [= <- <-];
    (split; [intros; contradiction|]);
    intros _ p' Hp'; rewrite Hatt in Hp'; injection Hp' as <-;
    rewrite Hct, <- ?app_assoc; cbn; auto.
  - (* TCPSynReceived *) four_parts. auto.
  - (* TCPSynAckSend *) four_parts. auto.
  - (* TCPAckSend *)
    destruct (cache_Remove (sourcePortConnectionCache (caches w)) _)
      as [r' c'].
    cbn in *. rewrite Hc. cbn. four_parts. auto.
  - (* TCPData *) four_parts. auto.
Qed.

(** C7.  An application SYN whose destination "ip:port" is in the external
    IP cache of the PU returns the cached policy, leaves the connection in
    [app_orig] under the flow hash and in [source_port] under the
    source-port hash, and changes neither the packet, nor a connection, nor
    a PU context; the only calls it makes are the lock and unlock of the
    context, so no token is created. *)
Theorem app_syn_external_cache_hit context conn w ctx policy :
  pus w !! context = Some ctx ->
  cache_Get (externalIPCache ctx)
    (IP_String (DestinationAddress (pkt w)) +:+ ":" +:+
     Itoa (DestinationPort (pkt w))) = Some policy ->
  let '(r, w') := processApplicationSynPacket d context conn w in
  r = Ok (Some policy)
  /\ cache_Get (appOrigConnectionTracker (caches w'))
       (L4FlowHash pk (pkt w)) = Some conn
  /\ cache_Get (sourcePortConnectionCache (caches w'))
       (SourcePortHash pk (pkt w) PacketTypeApplication) = Some conn
  /\ pkt w' = pkt w
  /\ conns w' = conns w
  /\ pus w' = pus w
  /\ trace w' = trace w ++ [EvContextLock context; EvContextUnlock context].
Proof.
  intros Hctx Hget.
  unfold processApplicationSynPacket. run.
  rewrite Hctx. cbn. rewrite Hget. cbn.
  rewrite !cache_Get_AddOrUpdate, <- app_assoc. auto 10.
Qed.

(** C8, as the code behaves.  The local context is set when the connection
    is created and set again, to the nonce the token engine returns, by
    every creation of a SYN token (reused or fresh) and of a SYN-ACK token;
    these leave the remote context alone.  The remote context is set, to
    the decoded nonce, by every successful parse of a SYN or SYN-ACK token,
    which leaves the local context alone; a parse that fails changes no
    connection.  Creating and parsing an ACK token change no connection. *)
Theorem nonce_fields_assignment context conn w ctx c :
  pus w !! context = Some ctx ->
  conns w !! conn = Some c ->
  let usable := (clock (timeCalls w) <? synExpiration ctx)%Z
                && (0 <? length (synToken ctx))%nat in
  (let '(r, w') := NewTCPConnection w in
   exists id, r = Ok id /\ conns w !! id = None
     /\ LocalContextOf w' id
        = Some (fst (GenerateRandomBytes 32 (randCalls w))))
  /\ (forall token nonce,
        usable = true ->
        Randomize (tokenEngine d) (synToken ctx) (randCalls w)
          = (token, nonce, None) ->
        let w' := snd (createSynPacketToken d context conn w) in
        LocalContextOf w' conn = Some nonce
        /\ RemoteContextOf w' conn = Some (RemoteContext (Auth c)))
  /\ (forall token nonce err,
        usable = false ->
        CreateAndSign (tokenEngine d) false (mkClaims (Identity ctx) [] [])
          (randCalls w) = (token, nonce, err) ->
        let w' := snd (createSynPacketToken d context conn w) in
        LocalContextOf w' conn = Some nonce
        /\ RemoteContextOf w' conn = Some (RemoteContext (Auth c)))
  /\ (forall token nonce err,
        CreateAndSign (tokenEngine d) false
          (mkClaims (Identity ctx) [] (RemoteContext (Auth c)))
          (randCalls w) = (token, nonce, err) ->
        let w' := snd (createSynAckPacketToken d context conn w) in
        LocalContextOf w' conn = Some nonce
        /\ RemoteContextOf w' conn = Some (RemoteContext (Auth c)))
  /\ (forall data,
        let '(r, w') := parsePacketToken d conn data w in
        match r with
        | Ok cl =>
            exists nonce cert,
              Decode (tokenEngine d) false data (RemotePublicKey (Auth c))
                = (Some cl, nonce, cert, None)
              /\ RemoteContextOf w' conn = Some nonce
              /\ LocalContextOf w' conn = Some (LocalContext (Auth c))
        | _ => conns w' = conns w
        end)
  /\ (forall data,
        conns (snd (createAckPacketToken d context conn w)) = conns w
        /\ conns (snd (parseAckToken d conn data w)) = conns w).
Proof.
  intros Hctx Hc. cbv zeta. unfold LocalContextOf, RemoteContextOf.
  repeat split.
  - pose proof (NewTCPConnection_spec w) as H.
    destruct (NewTCPConnection w) as [r w']. cbv zeta in H.
    destruct H as (-> & Hfresh & ->). eexists. split; [reflexivity|].
    split; [exact Hfresh|]. now rewrite lookup_insert_eq.
  - pose proof (createSynPacketToken_reuse _ _ _ _ _ _ _ Hctx Hc H H0) as X.
    destruct (createSynPacketToken d context conn w) as [r w'].
    destruct X as (_ & _ & Hx & _). cbn. rewrite Hx. reflexivity.
  - pose proof (createSynPacketToken_reuse _ _ _ _ _ _ _ Hctx Hc H H0) as X.
    destruct (createSynPacketToken d context conn w) as [r w'].
    destruct X as (_ & _ & Hx & _). cbn. rewrite Hx. reflexivity.
  - pose proof (createSynPacketToken_fresh _ _ _ _ _ _ _ _ Hctx Hc H H0)
      as X.
    destruct (createSynPacketToken d context conn w) as [r w'].
    destruct X as (_ & Hx & _). cbn. rewrite Hx. reflexivity.
  - pose proof (createSynPacketToken_fresh _ _ _ _ _ _ _ _ Hctx Hc H H0)
      as X.
    destruct (createSynPacketToken d context conn w) as [r w'].
    destruct X as (_ & Hx & _). cbn. rewrite Hx. reflexivity.
  - pose proof (createSynAckPacketToken_spec _ _ _ _ _ _ _ _ Hctx Hc H) as X.
    destruct (createSynAckPacketToken d context conn w) as [r w'].
    destruct X as (_ & _ & Hx). cbn. rewrite Hx. reflexivity.
  - pose proof (createSynAckPacketToken_spec _ _ _ _ _ _ _ _ Hctx Hc H) as X.
    destruct (createSynAckPacketToken d context conn w) as [r w'].
    destruct X as (_ & _ & Hx). cbn. rewrite Hx. reflexivity.
  - intros data.
    pose proof (parsePacketToken_spec conn w c data Hc) as X.
    destruct (parsePacketToken d conn data w) as [[cl|e|s] w'];
      [|exact X|exact X].
    destruct X as (nonce & cert & Hdec & c' & Hx & <- & <- & _).
    rewrite Hx. cbn. eauto 10.
  - apply (proj1 (ack_tokens_keep_nonces context conn w [])).
  - match goal with
    | |- conns (snd (parseAckToken _ _ ?x _)) = _ =>
        apply (proj2 (ack_tokens_keep_nonces context conn w x))
    end.
Qed.

(** C9.  The cached SYN token of a PU is reused only while its expiration
    lies after the clock reading and its bytes are not empty.  Then the
    token engine re-randomizes it and, when that succeeds, the randomized
    token is returned, it replaces the cached bytes, its nonce becomes the
    local context of the connection, and the expiration stays.  Otherwise
    the only call to the engine is a signature over the PU identity, and
    when it succeeds the fresh token is returned and cached, its nonce
    becomes the local context, and the expiration becomes the next clock
    reading plus 500 milliseconds. *)
Theorem syn_token_reuse_window context conn w ctx c :
  pus w !! context = Some ctx ->
  conns w !! conn = Some c ->
  let usable := (clock (timeCalls w) <? synExpiration ctx)%Z
                && (0 <? length (synToken ctx))%nat in
  let claims := mkClaims (Identity ctx) [] [] in
  let '(r, w') := createSynPacketToken d context conn w in
  (usable = true ->
     forall token nonce,
       Randomize (tokenEngine d) (synToken ctx) (randCalls w)
         = (token, nonce, None) ->
       r = Ok token
       /\ LocalContextOf w' conn = Some nonce
       /\ synToken <$> pus w' !! context = Some token
       /\ synExpiration <$> pus w' !! context = Some (synExpiration ctx)
       /\ trace w' = trace w ++ [EvRandomize (synToken ctx)])
  /\ (usable = false ->
      trace w' = trace w ++ [EvCreateAndSign false claims]
      /\ forall token nonce,
           CreateAndSign (tokenEngine d) false claims (randCalls w)
             = (token, nonce, None) ->
           r = Ok token
           /\ LocalContextOf w' conn = Some nonce
           /\ synToken <$> pus w' !! context = Some token
           /\ synExpiration <$> pus w' !! context
              = Some (clock (S (timeCalls w)) + Millisecond * 500)%Z).
Proof.
  intros Hctx Hc. cbv zeta. unfold LocalContextOf.
  destruct (createSynPacketToken d context conn w) as [r w'] eqn:Hrun.
  split.
  - intros Hu token nonce Hrand.
    pose proof (createSynPacketToken_reuse _ _ _ _ _ _ _ Hctx Hc Hu Hrand)
      as X.
    rewrite Hrun in X. destruct X as (-> & -> & -> & ->). auto.
  - intros Hu.
    destruct (CreateAndSign (tokenEngine d) false
                (mkClaims (Identity ctx) [] []) (randCalls w))
      as [[tok nn] err] eqn:Hcs.
    pose proof (createSynPacketToken_fresh _ _ _ _ _ _ _ _ Hctx Hc Hu Hcs)
      as X.
    rewrite Hrun in X. destruct X as (-> & -> & X).
    split; [reflexivity|].
    intros token nonce [= <- <- ->]. destruct X as (-> & ->). auto.
Qed.

(** C10.  An application SYN-ACK whose flow hash is neither in [app_reply]
    nor in [app_orig]: when the mark of the packet is the decimal form of
    the initial mark value minus one, the entry point returns a nil error;
    for any other mark it returns the error of the lookup.  Either way the
    packet is unchanged, no connection is created or changed, no
    connection cache changes, and nothing is locked or reported. *)
Theorem app_synack_without_state w :
  Z.land (TCPFlags (pkt w)) TCPSynAckMask = TCPSynAckMask ->
  cache_Get (appReplyConnectionTracker (caches w)) (L4FlowHash pk (pkt w))
    = None ->
  cache_Get (appOrigConnectionTracker (caches w)) (L4FlowHash pk (pkt w))
    = None ->
  let '(r, w') := processApplicationTCPPackets d w in
  (Mark (pkt w) = Itoa (Initialmarkval K - 1) -> r = Ok tt)
  /\ (Mark (pkt w) <> Itoa (Initialmarkval K - 1) ->
      r = Error "App state not found")
  /\ pkt w' = pkt w
  /\ conns w' = conns w
  /\ trace w' = trace w
  /\ (forall kc, connCache kc (caches w') = connCache kc (caches w)).
Proof.
  intros Hf Hrep Horig.
  unfold processApplicationTCPPackets, appRetrieveState. run.
  rewrite Hf. cbn.
  rewrite (cache_GetReset_miss _ _ _ Hrep). cbn.
  rewrite (cache_GetReset_miss _ _ _ Horig). cbn.
  destruct (String.eqb_spec (Mark (pkt w)) (Itoa (Initialmarkval K - 1)))
    as [Hm|Hm].
  all: destruct (negb (ModeType_eqb (mode d) RemoteContainer)).
  all: try match goal with
       | |- context [contextFromIP d ?a ?b ?c ?e ?w0] =>
           destruct (contextFromIP_cases a b c e w0) as [[pu ->]|[e' ->]]
       end.
  all: cbn; repeat split; try congruence; try (intros []; reflexivity).
Qed.

End Properties.

(** ** The claims on the concrete datapath *)

Section Instances.
Import Fixture.

Lemma ack_token_nonces_checked_witness :
  let w := w_net_ack TCPSynAckSend bad_ack in
  conns w !! 0%nat = Some (conn0 TCPSynAckSend)
  /\ pus w !! 0%nat = Some pu0
  /\ is_err (fst (processNetworkAckPacket (E:=E0) d0 0%nat 0%nat w)) = true
  /\ StateOf (snd (processNetworkAckPacket (E:=E0) d0 0%nat 0%nat w)) 0%nat
     = Some TCPSynAckSend.
Proof.
  cbv zeta.
  assert (Hc : conns (w_net_ack TCPSynAckSend bad_ack) !! 0%nat
               = Some (conn0 TCPSynAckSend)) by reflexivity.
  assert (Hp : pus (w_net_ack TCPSynAckSend bad_ack) !! 0%nat = Some pu0)
    by reflexivity.
  pose proof (ack_token_nonces_checked (E:=E0) d0 0%nat 0%nat
                (w_net_ack TCPSynAckSend bad_ack) (conn0 TCPSynAckSend) pu0
                Hc Hp (or_introl eq_refl)) as H.
  cbv zeta in H.
  destruct (processNetworkAckPacket (E:=E0) d0 0%nat 0%nat
              (w_net_ack TCPSynAckSend bad_ack)) as [r w'].
  destruct H as [_ H].
  specialize (H (mkClaims None (nonce_of 9) (nonce_of 8)) [] None
                eq_refl eq_refl).
  destruct H as (Herr & _ & Hconns & _).
  { left. vm_compute. discriminate. }
  unfold StateOf. cbn [fst snd]. rewrite Hconns. auto.
Defined.

Lemma token_creation_error_swallowed_witness :
  let w := w_app_syn TCPSynSend pu0 ipB in
  CreateAndSign (tokenEngine d_failing) false
    (mkClaims (Identity pu0) [] []) (randCalls w)
    = ([], [], Some "signing failed")
  /\ fst (createSynPacketToken (E:=E0) d_failing 0%nat 0%nat w) = Ok []
  /\ fst (processApplicationSynPacket (E:=E0) d_failing 0%nat 0%nat w)
     = Ok None.
Proof.
  cbv zeta.
  pose proof (token_creation_error_swallowed (E:=E0) d_failing 0%nat 0%nat
                (w_app_syn TCPSynSend pu0 ipB) pu0 (conn0 TCPSynSend)
                [] [] "signing failed" eq_refl eq_refl eq_refl eq_refl)
    as (Htok & _ & Hcaller).
  specialize (Hcaller _ eq_refl eq_refl).
  destruct (processApplicationSynPacket (E:=E0) d_failing 0%nat 0%nat
              (w_app_syn TCPSynSend pu0 ipB)) as [r w'].
  destruct Htok as [Htok _]. destruct Hcaller as [Hr _].
  auto.
Defined.

(** C3, the claim as it is written fails here: an enforcer with an empty
    source-port cache receives a SYN-ACK; the entry point returns a nil
    error, which tells the caller to forward the packet. *)
Lemma net_synack_unknown_is_not_dropped :
  let w := w_unknown 0x12 "" [] [] in
  Z.land (TCPFlags (pkt w)) TCPSynAckMask = TCPSynAckMask
  /\ cache_Get (sourcePortConnectionCache (caches w))
       (SourcePortHash (pk (Env:=E0)) (pkt w) PacketTypeNetwork) = None
  /\ processNetworkTCPPackets (E:=E0) d0 w = (Ok tt, w)
  /\ is_err (fst (processNetworkTCPPackets (E:=E0) d0 w)) = false.
Proof. vm_compute. auto. Qed.

Lemma net_synack_without_state_passes_witness :
  let w := w_unknown 0x12 "" authOption (nonce_of 3) in
  Z.land (TCPFlags (pkt w)) TCPSynAckMask = TCPSynAckMask
  /\ processNetworkTCPPackets (E:=E0) d0 w = (Ok tt, w).
Proof.
  cbv zeta. split; [reflexivity|].
  apply (net_synack_without_state_passes (E:=E0) d0
           (w_unknown 0x12 "" authOption (nonce_of 3)));
    reflexivity.
Defined.

Lemma reject_rules_searched_first_witness :
  let w := w_net_syn in
  let tags := [("AporetoContextID", "peer"); ("@port", "80")] in
  (0 <= fst (Search (RejectRcvRules pu0) tags))%Z
  /\ (0 <= fst (Search (AcceptRcvRules pu0) tags))%Z
  /\ is_err (fst (processNetworkSynPacket (E:=E0) d0 0%nat 0%nat w)) = true
  /\ caches (snd (processNetworkSynPacket (E:=E0) d0 0%nat 0%nat w))
     = caches w.
Proof.
  cbv zeta.
  pose proof (reject_rules_searched_first (E:=E0) d0 0%nat 0%nat w_net_syn)
    as (_ & _ & H).
  specialize (H (conn0 TCPSynSend) pu0
                (mkClaims (Some [("AporetoContextID", "peer")]) [] [])
                (nonce_of 3) None [("AporetoContextID", "peer")] "peer"
                (with_payload [] (nonce_of 3) (pkt w_net_syn))
                eq_refl eq_refl eq_refl eq_refl eq_refl eq_refl eq_refl).
  cbv zeta in H.
  assert (Hrej : (0 <= fst (Search (RejectRcvRules pu0)
                              [("AporetoContextID", "peer"); ("@port", "80")]))%Z)
    by (vm_compute; discriminate).
  specialize (H Hrej).
  destruct (processNetworkSynPacket (E:=E0) d0 0%nat 0%nat w_net_syn)
    as [r w'].
  destruct H as (Herr & _ & Hcaches & _).
  split; [exact Hrej|]. split; [vm_compute; discriminate|]. auto.
Defined.

Lemma transient_syn_passes_untouched_witness :
  let w := w_unknown 0x02 "" authOption (nonce_of 3) in
  mode d0 <> RemoteContainer
  /\ fst (processNetworkTCPPackets (E:=E0) d0 w) = Ok tt
  /\ tcpOptions (pkt (snd (processNetworkTCPPackets (E:=E0) d0 w)))
     = authOption
  /\ tcpData (pkt (snd (processNetworkTCPPackets (E:=E0) d0 w)))
     = nonce_of 3.
Proof.
  cbv zeta.
  assert (Hm : mode d0 <> RemoteContainer) by discriminate.
  pose proof (transient_syn_passes_untouched (E:=E0) d0
                (w_unknown 0x02 "" authOption (nonce_of 3))
                eq_refl Hm eq_refl) as H.
  cbv zeta in H. destruct H as (_ & -> & _).
  split; [exact Hm|]. repeat split.
Defined.

Lemma app_ack_state_machine_witness :
  let w := w_app_ack TCPSynSend in
  conns w !! 0%nat = Some (conn0 TCPSynSend)
  /\ fst (processApplicationAckPacket (E:=E0) d0 0%nat 0%nat w) = Ok None
  /\ StateOf (snd (processApplicationAckPacket (E:=E0) d0 0%nat 0%nat w))
       0%nat = Some TCPAckSend.
Proof.
  cbv zeta.
  pose proof (app_ack_state_machine (E:=E0) d0 0%nat 0%nat
                (w_app_ack TCPSynSend) (conn0 TCPSynSend) eq_refl) as H.
  cbv zeta in H.
  destruct (processApplicationAckPacket (E:=E0) d0 0%nat 0%nat
              (w_app_ack TCPSynSend)) as [r w'].
  destruct H as (H & _).
  specialize (H (or_intror eq_refl) (nonce_of 7 ++ nonce_of 9) (nonce_of 0)
                eq_refl).
  destruct H as (_ & H).
  specialize (H eq_refl _ eq_refl).
  destruct H as (Hr & _ & Hconns & _).
  unfold StateOf. cbn [fst snd]. rewrite Hconns. auto.
Defined.

Lemma app_syn_external_cache_hit_witness :
  let w := w_app_syn TCPSynSend pu0 ipExt in
  pus w !! 0%nat = Some pu0
  /\ fst (processApplicationSynPacket (E:=E0) d0 0%nat 0%nat w)
     = Ok (Some accept_ext)
  /\ pkt (snd (processApplicationSynPacket (E:=E0) d0 0%nat 0%nat w))
     = pkt w.
Proof.
  cbv zeta.
  pose proof (app_syn_external_cache_hit (E:=E0) d0 0%nat 0%nat
                (w_app_syn TCPSynSend pu0 ipExt) pu0 accept_ext
                eq_refl eq_refl) as H.
  destruct (processApplicationSynPacket (E:=E0) d0 0%nat 0%nat
              (w_app_syn TCPSynSend pu0 ipExt)) as [r w'].
  destruct H as (Hr & _ & _ & Hp & _). auto.
Defined.

(** C8, the claim as it is written fails here.  The application sends a
    SYN and then sends it again: the local context of the connection after
    the first SYN is not the one after the second.  And the remote context
    that one parsed token leaves is replaced by the next. *)
Lemma local_context_rewritten_by_second_syn :
  let w0 := w_app_syn TCPSynSend pu0 ipB in
  let w1 := snd (processApplicationSynPacket (E:=E0) d0 0%nat 0%nat w0) in
  let w2 := snd (processApplicationSynPacket (E:=E0) d0 0%nat 0%nat
                   (set_pkt (pkt w0) w1)) in
  let w3 := snd (parsePacketToken (E:=E0) d0 0%nat (nonce_of 3) w2) in
  let w4 := snd (parsePacketToken (E:=E0) d0 0%nat (nonce_of 4) w3) in
  LocalContextOf w1 0%nat = Some (nonce_of 0)
  /\ LocalContextOf w2 0%nat = Some (nonce_of 1)
  /\ LocalContextOf w1 0%nat <> LocalContextOf w2 0%nat
  /\ RemoteContextOf w3 0%nat = Some (nonce_of 3)
  /\ RemoteContextOf w4 0%nat = Some (nonce_of 4)
  /\ RemoteContextOf w3 0%nat <> RemoteContextOf w4 0%nat.
Proof. vm_compute. repeat split; discriminate. Qed.

Lemma nonce_fields_assignment_witness :
  let w := w_app_syn TCPSynSend pu0 ipB in
  pus w !! 0%nat = Some pu0
  /\ conns w !! 0%nat = Some (conn0 TCPSynSend)
  /\ LocalContextOf (snd (createSynPacketToken (E:=E0) d0 0%nat 0%nat w))
       0%nat = Some (nonce_of 0)
  /\ LocalContextOf (snd (createSynAckPacketToken d0 0%nat 0%nat w)) 0%nat
     = Some (nonce_of 0).
Proof.
  cbv zeta.
  pose proof (nonce_fields_assignment (E:=E0) d0 0%nat 0%nat
                (w_app_syn TCPSynSend pu0 ipB) pu0 (conn0 TCPSynSend)
                eq_refl eq_refl) as H.
  cbv zeta in H. destruct H as (_ & _ & Hfresh & Hsynack & _).
  specialize (Hfresh _ _ _ eq_refl eq_refl) as [Hl _].
  specialize (Hsynack _ _ _ eq_refl) as [Hl' _].
  auto.
Defined.

Lemma syn_token_reuse_window_witness :
  let w := w_app_syn TCPSynSend pu_cached ipB in
  (clock (Env:=E0) (timeCalls w) <? synExpiration pu_cached)%Z
    && (0 <? length (synToken pu_cached))%nat = true
  /\ fst (createSynPacketToken (E:=E0) d0 0%nat 0%nat w)
     = Ok (nonce_of 0 ++ nonce_of 2)
  /\ LocalContextOf (snd (createSynPacketToken (E:=E0) d0 0%nat 0%nat w))
       0%nat = Some (nonce_of 0).
Proof.
  cbv zeta.
  pose proof (syn_token_reuse_window (E:=E0) d0 0%nat 0%nat
                (w_app_syn TCPSynSend pu_cached ipB) pu_cached
                (conn0 TCPSynSend) eq_refl eq_refl) as H.
  cbv zeta in H.
  destruct (createSynPacketToken (E:=E0) d0 0%nat 0%nat
              (w_app_syn TCPSynSend pu_cached ipB)) as [r w'].
  destruct H as (H & _).
  specialize (H eq_refl _ _ eq_refl) as (Hr & Hl & _).
  split; [reflexivity|]. auto.
Defined.

Lemma app_synack_without_state_witness :
  let w := w_unknown 0x12 "99" [] [] in
  Z.land (TCPFlags (pkt w)) TCPSynAckMask = TCPSynAckMask
  /\ Mark (pkt w) = Itoa (Initialmarkval (K (Env:=E0)) - 1)
  /\ fst (processApplicationTCPPackets (E:=E0) d0 w) = Ok tt.
Proof.
  cbv zeta.
  pose proof (app_synack_without_state (E:=E0) d0
                (w_unknown 0x12 "99" [] []) eq_refl eq_refl eq_refl) as H.
  destruct (processApplicationTCPPackets (E:=E0) d0
              (w_unknown 0x12 "99" [] [])) as [r w'].
  destruct H as (H & _).
  split; [reflexivity|]. split; [reflexivity|]. exact (H eq_refl).
Defined.

End Instances.
